(** * ITS_LIVE catalog helpers of [accessing_s3_data.ipynb]

    A shallow embedding of the helper functions of the notebook:
    [read_in_s3] (the URL rewriting it performs), [find_granules_by_zone],
    [find_granule_by_point] and [get_bbox_single], together with the small
    part of the Python and library semantics they rely on:
    [str.replace], dictionary and list subscripting on the value of
    [json.loads], shapely's [Polygon] constructor and [contains] predicate,
    and the exceptions these raise. *)

From Stdlib Require Import String Ascii List Bool Arith Lia ZArith QArith Qminmax Lqa DecimalString.
Import ListNotations.
Open Scope string_scope.

Set Implicit Arguments.

(* ===================================================================== *)
(** * Python strings: [str.replace] *)
(* ===================================================================== *)

Module PyStr.

(** [s[n:]] *)
Fixpoint drop (n : nat) (s : string) : string :=
  match n, s with
  | O, _ => s
  | S _, EmptyString => EmptyString
  | S k, String _ t => drop k t
  end.

(** [old in s] *)
Fixpoint contains (old s : string) : bool :=
  prefix old s ||
  match s with
  | EmptyString => false
  | String _ t => contains old t
  end.

(** The scan of [str.replace] for a non-empty [old]: left to right, an
    occurrence of [old] at the current position is replaced by [new] and
    the scan resumes after it ([skip] counts the characters of the
    occurrence still to be passed over), any other character is copied. *)
Fixpoint replace_from (old new : string) (skip : nat) (s : string) : string :=
  match s with
  | EmptyString => EmptyString
  | String c t =>
      match skip with
      | S k => replace_from old new k t
      | O =>
          if prefix old s
          then new ++ replace_from old new (String.length old - 1) t
          else String c (replace_from old new 0 t)
      end
  end.

(** [s.replace('', new)]: [new] is put before every character and at the
    end. *)
Fixpoint interleave (new s : string) : string :=
  match s with
  | EmptyString => new
  | String c t => new ++ String c (interleave new t)
  end.

(** [s.replace(old, new)] *)
Definition replace (old new s : string) : string :=
  match old with
  | EmptyString => interleave new s
  | String _ _ => replace_from old new 0 s
  end.

(** The leftmost occurrence of [old] in [s], as the text before it and the
    text after it. *)
Fixpoint split_first (old s : string) : option (string * string) :=
  if prefix old s then Some (EmptyString, drop (String.length old) s)
  else
    match s with
    | EmptyString => None
    | String c t =>
        match split_first old t with
        | Some (a, b) => Some (String c a, b)
        | None => None
        end
    end.

End PyStr.

(* ===================================================================== *)
(** * Locator translation *)
(* ===================================================================== *)

(** The rewriting of [read_in_s3] and of [find_granules_by_zone]:
    [http_url.replace('http','s3').replace('.s3.amazonaws.com','')]. *)
Definition s3_url_of (http_url : string) : string :=
  PyStr.replace ".s3.amazonaws.com" "" (PyStr.replace "http" "s3" http_url).

(* ===================================================================== *)
(** * Exceptions *)
(* ===================================================================== *)

(** A subscript: [x['name']] or [x[i]]. *)
Inductive pykey : Type :=
  | KStr (s : string)
  | KInt (n : nat).

(** The exceptions the helpers can raise, directly or through the
    libraries they call. *)
Inductive exn : Type :=
  | KeyError (k : pykey)
  | IndexError
  | TypeError
  | AttributeError (name : string)
  | ValueError
  | CRSError.

Inductive result (A : Type) : Type :=
  | Ok (a : A)
  | Raise (e : exn).

Arguments Ok {A} a.
Arguments Raise {A} e.

Definition bind {A B : Type} (m : result A) (k : A -> result B) : result B :=
  match m with
  | Ok a => k a
  | Raise e => Raise e
  end.

Notation "x <- m ;; k" := (bind m (fun x => k))
  (at level 61, m at next level, right associativity).

Definition is_ok {A : Type} (m : result A) : bool :=
  match m with Ok _ => true | Raise _ => false end.

(** [for i in range(n): st = body(i, st)], starting the count at [i0]. *)
Fixpoint for_range {St : Type} (body : nat -> St -> result St)
    (i0 n : nat) (st : St) : result St :=
  match n with
  | O => Ok st
  | S k => st' <- body i0 st ;; for_range body (S i0) k st'
  end.

(* ===================================================================== *)
(** * The value of [json.loads] *)
(* ===================================================================== *)

#[warnings="-register-all"]
Inductive json : Type :=
  | JNull
  | JBool (b : bool)
  | JNum (q : Q)
  | JStr (s : string)
  | JArr (l : list json)
  | JObj (m : list (string * json)).

Module Py.

Fixpoint dict_get (m : list (string * json)) (k : string) : option json :=
  match m with
  | [] => None
  | (k', v) :: m' => if String.eqb k' k then Some v else dict_get m' k
  end.

(** [x[k]]. The keys of a decoded JSON object are strings, so an integer
    subscript of a dict is always a missing key. *)
Definition getitem (x : json) (k : pykey) : result json :=
  match x, k with
  | JObj m, KStr s =>
      match dict_get m s with
      | Some v => Ok v
      | None => Raise (KeyError k)
      end
  | JObj _, KInt _ => Raise (KeyError k)
  | JArr l, KInt n =>
      match nth_error l n with
      | Some v => Ok v
      | None => Raise IndexError
      end
  | JStr s, KInt n =>
      match String.get n s with
      | Some c => Ok (JStr (String c EmptyString))
      | None => Raise IndexError
      end
  | _, _ => Raise TypeError
  end.

(** [len(x)] *)
Definition len (x : json) : result nat :=
  match x with
  | JObj m => Ok (List.length m)
  | JArr l => Ok (List.length l)
  | JStr s => Ok (String.length s)
  | _ => Raise TypeError
  end.

(** [x == s] for a string [s]: values of another type are unequal. *)
Definition eq_str (x : json) (s : string) : bool :=
  match x with
  | JStr t => String.eqb t s
  | _ => false
  end.

(** [x.replace(old, new)]: only strings have the method. *)
Definition replace_method (x : json) (old new : string) : result string :=
  match x with
  | JStr s => Ok (PyStr.replace old new s)
  | _ => Raise (AttributeError "replace")
  end.

End Py.

(* ===================================================================== *)
(** * Planar geometry: shapely's [Polygon] and [contains] *)
(* ===================================================================== *)

(** Coordinates are the numbers of the catalog document.  Every finite
    double is a rational, and the predicates below only compare
    coordinates and take the sign of an orientation determinant, which
    the geometry engine evaluates robustly; rationals are therefore read
    exactly. *)
Definition coord : Type := (Q * Q)%type.

Module Geom.

Definition Qltb (a b : Q) : bool := negb (Qle_bool b a).

Definition coord_eqb (a b : coord) : bool :=
  Qeq_bool (fst a) (fst b) && Qeq_bool (snd a) (snd b).

(** A polygon with an exterior ring only; [None] is the empty polygon. *)
Definition polygon : Type := option (list coord).

(** [Polygon(shell)]: an empty sequence is the empty polygon; one or two
    coordinates are refused; the ring is closed with a copy of its first
    vertex when it has three coordinates or when its ends differ. *)
Definition Polygon (shell : list coord) : result polygon :=
  match shell with
  | [] => Ok None
  | first :: _ =>
      if (List.length shell <? 3)%nat then Raise ValueError
      else if (List.length shell =? 3)%nat then Ok (Some (shell ++ [first])%list)
      else if coord_eqb first (last shell first) then Ok (Some shell)
      else Ok (Some (shell ++ [first])%list)
  end.

(** Sign of the turn [p1 -> p2 -> q]: [Gt] when [q] is to the left
    (counter-clockwise), [Lt] to the right, [Eq] when collinear. *)
Definition orientation_index (p1 p2 q : coord) : comparison :=
  Qcompare ((fst p2 - fst p1) * (snd q - snd p1))
           ((snd p2 - snd p1) * (fst q - fst p1)).

Inductive location : Type := Interior | Boundary | Exterior.

(** State of the ray-crossing count for a test point: whether the point
    was found on a segment, and the number of ring segments crossed by the
    ray that leaves the point towards increasing x. *)
Record counter : Type := { on_segment : bool; crossings : nat }.

Definition count_segment (p p1 p2 : coord) (c : counter) : counter :=
  if Qltb (fst p1) (fst p) && Qltb (fst p2) (fst p) then c
  else if coord_eqb p p2 then {| on_segment := true; crossings := crossings c |}
  else if Qeq_bool (snd p1) (snd p) && Qeq_bool (snd p2) (snd p) then
    if Qle_bool (Qmin (fst p1) (fst p2)) (fst p)
       && Qle_bool (fst p) (Qmax (fst p1) (fst p2))
    then {| on_segment := true; crossings := crossings c |}
    else c
  else if (Qltb (snd p) (snd p1) && Qle_bool (snd p2) (snd p))
          || (Qltb (snd p) (snd p2) && Qle_bool (snd p1) (snd p)) then
    match orientation_index p1 p2 p with
    | Eq => {| on_segment := true; crossings := crossings c |}
    | o =>
        let o' := if Qltb (snd p2) (snd p1) then CompOpp o else o in
        match o' with
        | Gt => {| on_segment := on_segment c; crossings := S (crossings c) |}
        | _ => c
        end
    end
  else c.

(** The segments of a ring are visited in order, each as
    [(ring[i], ring[i-1])]. *)
Fixpoint count_ring (p : coord) (ring : list coord) (c : counter) : counter :=
  match ring with
  | prev :: ((cur :: _) as rest) => count_ring p rest (count_segment p cur prev c)
  | _ => c
  end.

Definition locate_in_ring (p : coord) (ring : list coord) : location :=
  let c := count_ring p ring {| on_segment := false; crossings := 0 |} in
  if on_segment c then Boundary
  else if Nat.odd (crossings c) then Interior
  else Exterior.

(** [poly.contains(Point(p))]: the point lies in the interior of the
    polygon.  A point of the boundary is not contained. *)
Definition contains (poly : polygon) (p : coord) : bool :=
  match poly with
  | None => false
  | Some ring =>
      match locate_in_ring p ring with
      | Interior => true
      | _ => false
      end
  end.

(** [poly.covers(Point(p))], the boundary-inclusive relative of
    [contains]; the helpers do not call it. *)
Definition covers (poly : polygon) (p : coord) : bool :=
  match poly with
  | None => false
  | Some ring =>
      match locate_in_ring p ring with
      | Exterior => false
      | _ => true
      end
  end.

End Geom.

(* ===================================================================== *)
(** * Reading coordinates out of the catalog document *)
(* ===================================================================== *)

Module Shapely.

Definition digit_of (c : ascii) : option Z :=
  let n := nat_of_ascii c in
  if (48 <=? n)%nat && (n <=? 57)%nat then Some (Z.of_nat (n - 48)) else None.

(** The characters that [float] strips from both ends of a string. *)
Definition is_space (c : ascii) : bool :=
  let n := nat_of_ascii c in
  ((9 <=? n)%nat && (n <=? 13)%nat) || ((28 <=? n)%nat && (n <=? 32)%nat).

Fixpoint lstrip (s : string) : string :=
  match s with
  | String c t => if is_space c then lstrip t else s
  | EmptyString => EmptyString
  end.

Fixpoint rstrip (s : string) : string :=
  match s with
  | EmptyString => EmptyString
  | String c t =>
      match rstrip t with
      | EmptyString => if is_space c then EmptyString else String c EmptyString
      | t' => String c t'
      end
  end.

(** The digits that follow the first digit of a digit part, each
    possibly after one underscore: the value read so far, the number of
    digits read so far, and what is left of the string. *)
Fixpoint digits_tail (acc : Z) (n : nat) (s : string) : Z * nat * string :=
  match s with
  | EmptyString => (acc, n, s)
  | String c t =>
      match digit_of c with
      | Some d => digits_tail (10 * acc + d) (S n) t
      | None =>
          if Ascii.eqb c "_" then
            match t with
            | EmptyString => (acc, n, s)
            | String c' t' =>
                match digit_of c' with
                | Some d => digits_tail (10 * acc + d) (S n) t'
                | None => (acc, n, s)
                end
            end
          else (acc, n, s)
      end
  end.

(** A digit part, [digit (["_"] digit)*], at the head of the string,
    read on from the value [acc]. *)
Definition digitpart (acc : Z) (s : string) : option (Z * nat * string) :=
  match s with
  | EmptyString => None
  | String c t =>
      match digit_of c with
      | Some d => Some (digits_tail (10 * acc + d) 1 t)
      | None => None
      end
  end.

(** [[digitpart] "." digitpart | digitpart ["."]]: the digits without
    the point, the number of digits after the point, the rest. *)
Definition number (s : string) : option (Z * nat * string) :=
  match digitpart 0 s with
  | Some (m, _, String "." t) =>
      match digitpart m t with
      | Some r => Some r
      | None => Some (m, 0%nat, t)
      end
  | Some (m, _, rest) => Some (m, 0%nat, rest)
  | None =>
      match s with
      | String "." t => digitpart 0 t
      | _ => None
      end
  end.

(** [("e" | "E") [sign] digitpart], when there is one. *)
Definition exponent (s : string) : option (Z * string) :=
  match s with
  | EmptyString => Some (0%Z, s)
  | String c t =>
      if Ascii.eqb c "e" || Ascii.eqb c "E" then
        let (neg, body) :=
          match t with
          | String "-" t' => (true, t')
          | String "+" t' => (false, t')
          | _ => (false, t)
          end in
        match digitpart 0 body with
        | Some (e, _, rest) => Some (if neg then (- e)%Z else e, rest)
        | None => None
        end
      else Some (0%Z, s)
  end.

(** [float(s)] on a string: surrounding whitespace is stripped, then a
    sign, a decimal number and an exponent are read, and nothing may
    follow; a string that spells no number is refused.  The value is the
    rational the spelling denotes, as for the numbers of the document.
    The spellings [inf], [infinity] and [nan], which [float] reads as
    non-finite values, have no counterpart among the coordinates of this
    embedding and are refused here. *)
Definition float_of_str (s : string) : result Q :=
  let s := rstrip (lstrip s) in
  let (neg, body) :=
    match s with
    | String "-" t => (true, t)
    | String "+" t => (false, t)
    | _ => (false, s)
    end in
  match number body with
  | Some (m, frac, rest) =>
      match exponent rest with
      | Some (e, EmptyString) =>
          Ok (inject_Z (if neg then - m else m)
              * Qpower (10#1) (e - Z.of_nat frac))%Q
      | _ => Raise ValueError
      end
  | None => Raise ValueError
  end.

(** [float(c)] on an ordinate of the document: a number is taken as it
    is, a boolean as 1 or 0, a string is converted; [None], a list and a
    dict are no numbers. *)
Definition ordinate (c : json) : result Q :=
  match c with
  | JNum q => Ok q
  | JBool b => Ok (if b then 1 else 0)
  | JStr s => float_of_str s
  | JNull | JArr _ | JObj _ => Raise TypeError
  end.

(** [for o in x]: the items of a list, the characters of a string, the
    keys of a dict; nothing else can be iterated. *)
Definition elements (x : json) : result (list json) :=
  match x with
  | JArr l => Ok l
  | JStr s => Ok (List.map (fun c => JStr (String c EmptyString))
                           (list_ascii_of_string s))
  | JObj m => Ok (List.map (fun kv => JStr (fst kv)) m)
  | JNull | JBool _ | JNum _ => Raise TypeError
  end.

Fixpoint ordinates (cs : list json) : result (list Q) :=
  match cs with
  | [] => Ok []
  | c :: cs' =>
      q <- ordinate c ;;
      qs <- ordinates cs' ;;
      Ok (q :: qs)
  end.

(** One coordinate tuple: [[float(c) for c in row]]. *)
Definition tuple_of_json (row : json) : result (list Q) :=
  cs <- elements row ;;
  ordinates cs.

Fixpoint tuples_of_json (rows : list json) : result (list (list Q)) :=
  match rows with
  | [] => Ok []
  | row :: rows' =>
      t <- tuple_of_json row ;;
      ts <- tuples_of_json rows' ;;
      Ok (t :: ts)
  end.

(** A tuple of two ordinates, or of three of which the third (the height)
    plays no part in planar predicates. *)
Definition coord_of_tuple (t : list Q) : result coord :=
  match t with
  | [x; y] => Ok (x, y)
  | [x; y; _] => Ok (x, y)
  | _ => Raise ValueError
  end.

Fixpoint coords_of_tuples (ts : list (list Q)) : result (list coord) :=
  match ts with
  | [] => Ok []
  | t :: ts' =>
      c <- coord_of_tuple t ;;
      cs <- coords_of_tuples ts' ;;
      Ok (c :: cs)
  end.

(** [Polygon(bbox_ls)] on a decoded JSON value.  [None] is the empty
    polygon.  Otherwise every tuple is converted first, in order; the
    tuples must then be of one common dimension, two or three. *)
Definition Polygon (bbox_ls : json) : result Geom.polygon :=
  match bbox_ls with
  | JNull => Ok None
  | _ =>
      rows <- elements bbox_ls ;;
      ts <- tuples_of_json rows ;;
      match ts with
      | [] => Geom.Polygon []
      | t :: _ =>
          if forallb (fun t' => (List.length t' =? List.length t)%nat) ts
          then cs <- coords_of_tuples ts ;; Geom.Polygon cs
          else Raise ValueError
      end
  end.

End Shapely.

(* ===================================================================== *)
(** * The catalog lookups *)
(* ===================================================================== *)

(** [input_point[i]] on a Python list of numbers. *)
Definition point_getitem (input_point : list Q) (i : nat) : result Q :=
  match nth_error input_point i with
  | Some q => Ok q
  | None => Raise IndexError
  end.

(** One turn of the loop of [find_granule_by_point]. *)
Definition point_body (input_dict : json) (point_geom : coord)
    (granule : nat) (target_granule_urls : list json) : result (list json) :=
  features <- Py.getitem input_dict (KStr "features") ;;
  feature <- Py.getitem features (KInt granule) ;;
  geometry <- Py.getitem feature (KStr "geometry") ;;
  coordinates <- Py.getitem geometry (KStr "coordinates") ;;
  bbox_ls <- Py.getitem coordinates (KInt 0) ;;
  bbox_geom <- Shapely.Polygon bbox_ls ;;
  if Geom.contains bbox_geom point_geom then
    features' <- Py.getitem input_dict (KStr "features") ;;
    feature' <- Py.getitem features' (KInt granule) ;;
    properties <- Py.getitem feature' (KStr "properties") ;;
    zarr_url <- Py.getitem properties (KStr "zarr_url") ;;
    Ok (target_granule_urls ++ [zarr_url])%list
  else Ok target_granule_urls.

(** [find_granule_by_point(input_dict, input_point)], with [input_point]
    the list [[lon, lat]].  The values found under ['zarr_url'] are
    appended as they are. *)
Definition find_granule_by_point (input_dict : json) (input_point : list Q)
    : result (list json) :=
  lon <- point_getitem input_point 0 ;;
  lat <- point_getitem input_point 1 ;;
  let point_geom := (lon, lat) in
  features <- Py.getitem input_dict (KStr "features") ;;
  n <- Py.len features ;;
  for_range (point_body input_dict point_geom) 0 n [].

Section ZoneLookup.

(** [fs.lexists] of the anonymous S3 file system: what the object store
    answers at the time of the call. *)
Variable lexists : string -> bool.

(** One turn of the loop of [find_granules_by_zone]. *)
Definition zone_body (input_dict : json) (epsg_code : string)
    (granule : nat) (url_ls : list string) : result (list string) :=
  features <- Py.getitem input_dict (KStr "features") ;;
  feature <- Py.getitem features (KInt granule) ;;
  properties <- Py.getitem feature (KStr "properties") ;;
  data_epsg <- Py.getitem properties (KStr "data_epsg") ;;
  if Py.eq_str data_epsg epsg_code then
    features' <- Py.getitem input_dict (KStr "features") ;;
    feature' <- Py.getitem features' (KInt granule) ;;
    properties' <- Py.getitem feature' (KStr "properties") ;;
    http_url <- Py.getitem properties' (KStr "zarr_url") ;;
    s3_url0 <- Py.replace_method http_url "http" "s3" ;;
    let s3_url := PyStr.replace ".s3.amazonaws.com" "" s3_url0 in
    if lexists s3_url then Ok (url_ls ++ [s3_url])%list else Ok url_ls
  else Ok url_ls.

(** [find_granules_by_zone(input_dict, epsg_code)] *)
Definition find_granules_by_zone (input_dict : json) (epsg_code : string)
    : result (list string) :=
  features <- Py.getitem input_dict (KStr "features") ;;
  n <- Py.len features ;;
  for_range (zone_body input_dict epsg_code) 0 n [].

End ZoneLookup.

(* ===================================================================== *)
(** * The footprint of an opened data cube *)
(* ===================================================================== *)

(** The value of an attribute of a variable of the data set. *)
Inductive attr : Type :=
  | AInt (n : Z)
  | AStr (s : string).

(** [f"{a}"] *)
Definition format_attr (a : attr) : string :=
  match a with
  | AInt n => NilZero.string_of_int (Z.to_int n)
  | AStr s => s
  end.

(** What [get_bbox_single] reads of an [xarray.Dataset]: its coordinate
    arrays by name, and the attributes of its variable [mapping], when it
    has one. *)
Record Dataset : Type := {
  coords : list (string * list Q);
  mapping : option (list (string * attr))
}.

Record GeoDataFrame : Type := {
  gdf_crs : string;
  gdf_geometry : list Geom.polygon
}.

(** What a call can hand back to its caller. *)
Inductive pyvalue : Type :=
  | PyNone
  | PyGeoDataFrame (g : GeoDataFrame).

(** What is drawn on the map axes. *)
Inductive draw : Type :=
  | StockImg
  | AddFeature (name : string)
  | SetExtent (extent : option (list Q))
  | PlotFrame (g : GeoDataFrame) (edgecolor : string).

Module Xr.

Fixpoint assoc {A : Type} (m : list (string * A)) (k : string) : option A :=
  match m with
  | [] => None
  | (k', v) :: m' => if String.eqb k' k then Some v else assoc m' k
  end.

(** [input_xr.coords[name].data] *)
Definition coords_data (input_xr : Dataset) (name : string) : result (list Q) :=
  match assoc (coords input_xr) name with
  | Some a => Ok a
  | None => Raise (KeyError (KStr name))
  end.

(** [a.min()] and [a.max()]: an empty array has no extremum. *)
Definition array_min (a : list Q) : result Q :=
  match a with
  | [] => Raise ValueError
  | x :: t => Ok (fold_left Qmin t x)
  end.

Definition array_max (a : list Q) : result Q :=
  match a with
  | [] => Raise ValueError
  | x :: t => Ok (fold_left Qmax t x)
  end.

(** [input_xr.mapping.spatial_epsg] *)
Definition mapping_spatial_epsg (input_xr : Dataset) : result attr :=
  match mapping input_xr with
  | None => Raise (AttributeError "mapping")
  | Some attrs =>
      match assoc attrs "spatial_epsg" with
      | Some a => Ok a
      | None => Raise (AttributeError "spatial_epsg")
      end
  end.

End Xr.

Section BoundingBox.

(** The projection database: which identifiers it resolves, and the
    coordinate transformation between two resolved systems. *)
Variable crs_known : string -> bool.
Variable transform : string -> string -> coord -> coord.

(** [gpd.GeoDataFrame(index=[0], crs=crs, geometry=[geom])] *)
Definition new_frame (crs : string) (geom : Geom.polygon) : result GeoDataFrame :=
  if crs_known crs then Ok {| gdf_crs := crs; gdf_geometry := [geom] |}
  else Raise CRSError.

(** [frame.to_crs(crs)]: every vertex is transformed. *)
Definition to_crs (frame : GeoDataFrame) (crs : string) : result GeoDataFrame :=
  if crs_known crs then
    Ok {| gdf_crs := crs;
          gdf_geometry :=
            List.map (option_map (List.map (transform (gdf_crs frame) crs)))
                     (gdf_geometry frame) |}
  else Raise CRSError.

Definition vertices (frame : GeoDataFrame) : list coord :=
  flat_map (fun g => match g with Some ring => ring | None => [] end)
           (gdf_geometry frame).

(** [frame.total_bounds], as [(minx, miny, maxx, maxy)]; a frame without
    a vertex has no finite bounds. *)
Definition total_bounds (frame : GeoDataFrame) : option (Q * Q * Q * Q) :=
  match vertices frame with
  | [] => None
  | v :: vs =>
      Some (fold_left Qmin (List.map fst vs) (fst v),
            fold_left Qmin (List.map snd vs) (snd v),
            fold_left Qmax (List.map fst vs) (fst v),
            fold_left Qmax (List.map snd vs) (snd v))
  end.

(** [get_bbox_single(input_xr)]: the value handed back, and what was
    drawn.  The body ends with the call that plots the frame; there is no
    [return] statement. *)
Definition get_bbox_single (input_xr : Dataset) : result (pyvalue * list draw) :=
  x <- Xr.coords_data input_xr "x" ;;
  xmin <- Xr.array_min x ;;
  x' <- Xr.coords_data input_xr "x" ;;
  xmax <- Xr.array_max x' ;;
  y <- Xr.coords_data input_xr "y" ;;
  ymin <- Xr.array_min y ;;
  y' <- Xr.coords_data input_xr "y" ;;
  ymax <- Xr.array_max y' ;;
  let pts_ls := [(xmin, ymin); (xmax, ymin); (xmax, ymax); (xmin, ymax); (xmin, ymin)] in
  epsg <- Xr.mapping_spatial_epsg input_xr ;;
  let crs := "epsg:" ++ format_attr epsg in
  polygon_geom <- Geom.Polygon pts_ls ;;
  polygon0 <- new_frame crs polygon_geom ;;
  polygon <- to_crs polygon0 "epsg:4326" ;;
  let bounds := total_bounds polygon in
  let bounds_format :=
    option_map (fun b => match b with
                         | (b0, b1, b2, b3) =>
                             [b0 - (15#1); b2 + (15#1); b1 - (15#1); b3 + (15#1)]%Q
                         end) bounds in
  Ok (PyNone,
      [StockImg; AddFeature "COASTLINE"; AddFeature "LAND";
       AddFeature "admin_1_states_provinces_lines";
       SetExtent bounds_format; PlotFrame polygon "red"]).

End BoundingBox.

(* ===================================================================== *)
(** * The catalog of the data model, and its document *)
(* ===================================================================== *)

(** A feature as the data model has it: footprint ring, zone identifier,
    resource locator. *)
Record Feature : Type := {
  footprint : list coord;
  zone : string;
  locator : string
}.

(** A feature of a document that may lack any of the three fields. *)
Record RawFeature : Type := {
  raw_ring : option (list coord);
  raw_zone : option string;
  raw_url : option string
}.

Definition raw_of (f : Feature) : RawFeature :=
  {| raw_ring := Some (footprint f);
     raw_zone := Some (zone f);
     raw_url := Some (locator f) |}.

Module Doc.

Definition coord_json (c : coord) : json := JArr [JNum (fst c); JNum (snd c)].

Definition ring_json (r : list coord) : json := JArr (List.map coord_json r).

Definition geometry_json (r : list coord) : json :=
  JObj [("type", JStr "Polygon"); ("coordinates", JArr [ring_json r])].

(** A present field is a key of the object, an absent one is no key. *)
Definition field {A : Type} (k : string) (enc : A -> json) (o : option A)
    : list (string * json) :=
  match o with
  | Some a => [(k, enc a)]
  | None => []
  end.

Definition feature_json (f : RawFeature) : json :=
  JObj ([("type", JStr "Feature")]
        ++ field "geometry" geometry_json (raw_ring f)
        ++ [("properties",
             JObj (field "data_epsg" JStr (raw_zone f)
                   ++ field "zarr_url" JStr (raw_url f)))])%list.

Definition raw_catalog_json (C : list RawFeature) : json :=
  JObj [("type", JStr "FeatureCollection");
        ("features", JArr (List.map feature_json C))].

Definition catalog_json (C : list Feature) : json :=
  raw_catalog_json (List.map raw_of C).

End Doc.

(** The rings [Polygon] accepts: empty, or at least three coordinates. *)
Definition ring_accepted (r : list coord) : bool :=
  match List.length r with
  | 1%nat | 2%nat => false
  | _ => true
  end.

(** The polygon of a footprint. *)
Definition footprint_polygon (r : list coord) : Geom.polygon :=
  match Geom.Polygon r with
  | Ok poly => poly
  | Raise _ => None
  end.

(** Where a point lies with respect to a footprint. *)
Definition footprint_location (r : list coord) (p : coord) : Geom.location :=
  match footprint_polygon r with
  | Some ring => Geom.locate_in_ring p ring
  | None => Geom.Exterior
  end.

Definition footprint_contains (f : Feature) (p : coord) : bool :=
  Geom.contains (footprint_polygon (footprint f)) p.

Definition on_boundary (f : Feature) (p : coord) : bool :=
  match footprint_location (footprint f) p with
  | Geom.Boundary => true
  | _ => false
  end.

(** The catalog of the scenario: one feature, the rectangle
    (84,28)-(85,29) in zone EPSG:32645. *)
Definition scenario_feature : Feature :=
  {| footprint := [(84#1, 28#1); (85#1, 28#1); (85#1, 29#1); (84#1, 29#1); (84#1, 28#1)];
     zone := "EPSG:32645";
     locator := "http://example.com/a.zarr" |}.

Definition scenario_catalog : list Feature := [scenario_feature].

(* ===================================================================== *)
(** * The loops, feature by feature *)
(* ===================================================================== *)

(** A loop over the elements of a list instead of over their indices. *)
Fixpoint run_steps {A St : Type} (step : A -> St -> result St)
    (l : list A) (st : St) : result St :=
  match l with
  | [] => Ok st
  | a :: l' => st' <- step a st ;; run_steps step l' st'
  end.

(** What one turn of [find_granule_by_point] does with a feature of the
    document: which keys it reads, and in which order. *)
Definition raw_point_step (p : coord) (f : RawFeature) (urls : list json)
    : result (list json) :=
  match raw_ring f with
  | None => Raise (KeyError (KStr "geometry"))
  | Some r =>
      poly <- Geom.Polygon r ;;
      if Geom.contains poly p then
        match raw_url f with
        | Some u => Ok (urls ++ [JStr u])%list
        | None => Raise (KeyError (KStr "zarr_url"))
        end
      else Ok urls
  end.

(** What one turn of [find_granules_by_zone] does with a feature of the
    document. *)
Definition raw_zone_step (lexists : string -> bool) (epsg_code : string)
    (f : RawFeature) (urls : list string) : result (list string) :=
  match raw_zone f with
  | None => Raise (KeyError (KStr "data_epsg"))
  | Some z =>
      if String.eqb z epsg_code then
        match raw_url f with
        | Some u =>
            if lexists (s3_url_of u) then Ok (urls ++ [s3_url_of u])%list
            else Ok urls
        | None => Raise (KeyError (KStr "zarr_url"))
        end
      else Ok urls
  end.

(** The fields the point lookup reads of a feature are present: its ring,
    and its locator when the ring contains the point. *)
Definition point_reads_ok (p : coord) (f : RawFeature) : bool :=
  match raw_ring f with
  | None => false
  | Some r =>
      if Geom.contains (footprint_polygon r) p
      then match raw_url f with Some _ => true | None => false end
      else true
  end.

(** The fields the zone lookup reads of a feature are present: its zone,
    and its locator when the zone is the one asked for. *)
Definition zone_reads_ok (epsg_code : string) (f : RawFeature) : bool :=
  match raw_zone f with
  | None => false
  | Some z =>
      if String.eqb z epsg_code
      then match raw_url f with Some _ => true | None => false end
      else true
  end.

(** The locators of the features whose ring contains the point. *)
Definition raw_point_urls (p : coord) (C : list RawFeature) : list json :=
  flat_map (fun f =>
              match raw_ring f, raw_url f with
              | Some r, Some u =>
                  if Geom.contains (footprint_polygon r) p then [JStr u] else []
              | _, _ => []
              end) C.

(** The translated locators of the features of the zone. *)
Definition raw_zone_urls (epsg_code : string) (C : list RawFeature) : list string :=
  flat_map (fun f =>
              match raw_zone f, raw_url f with
              | Some z, Some u =>
                  if String.eqb z epsg_code then [s3_url_of u] else []
              | _, _ => []
              end) C.

Definition rings_accepted (C : list RawFeature) : bool :=
  forallb (fun f => match raw_ring f with
                    | Some r => ring_accepted r
                    | None => true
                    end) C.

(* ===================================================================== *)
(** * Opening a data cube, and sample inputs *)
(* ===================================================================== *)

Section Open.

(** [xr.open_dataset(url, engine='zarr', storage_options={'anon': True},
    chunks=chunks)] against the object store. *)
Variable open_dataset : string -> result Dataset.

(** [read_in_s3(http_url)] *)
Definition read_in_s3 (http_url : string) : result Dataset :=
  let s3_url := PyStr.replace "http" "s3" http_url in
  let s3_url := PyStr.replace ".s3.amazonaws.com" "" s3_url in
  open_dataset s3_url.

End Open.

(** The exceptions by which a data set without a usable projection makes
    [get_bbox_single] fail: the attribute is not there, or the projection
    database does not resolve it. *)
Definition projection_error (e : exn) : bool :=
  match e with
  | AttributeError name => String.eqb name "mapping" || String.eqb name "spatial_epsg"
  | CRSError => true
  | _ => false
  end.

(** The axes of a data set, when it has both and neither is empty. *)
Definition axes (input_xr : Dataset) : option (list Q * list Q) :=
  match Xr.assoc (coords input_xr) "x", Xr.assoc (coords input_xr) "y" with
  | Some (x :: xs), Some (y :: ys) => Some (x :: xs, y :: ys)
  | _, _ => None
  end.

(** The five vertices of the rectangle between two corners. *)
Definition rectangle (xmin ymin xmax ymax : Q) : list coord :=
  [(xmin, ymin); (xmax, ymin); (xmax, ymax); (xmin, ymax); (xmin, ymin)].

(** A small data cube in UTM zone 45N. *)
Definition sample_cube : Dataset :=
  {| coords := [("mid_date", [1; 2#1]);
                ("x", [200000#1; 200120#1; 200240#1]);
                ("y", [4700240#1; 4700120#1; 4700000#1])];
     mapping := Some [("grid_mapping_name", AStr "universal_transverse_mercator");
                      ("spatial_epsg", AInt 32645)] |}.

(** The same cube without its projection variable. *)
Definition sample_cube_unprojected : Dataset :=
  {| coords := coords sample_cube; mapping := None |}.

(** A projection database that resolves the two systems of the example. *)
Definition sample_crs_known (crs : string) : bool :=
  String.eqb crs "epsg:32645" || String.eqb crs "epsg:4326".

(** A stand-in for the reprojection of the example: a change of origin
    and scale; the theorems hold for any transformation. *)
Definition sample_transform (src dst : string) (c : coord) : coord :=
  ((fst c - (500000#1)) / (100000#1) + (87#1), snd c / (111000#1))%Q.

(** The object store of the examples: only keys of the bucket
    [its-live-data] exist. *)
Definition sample_lexists (url : string) : bool :=
  prefix "s3://its-live-data/" url.

(** A catalog of three features, two of zone 45N. *)
Definition sample_catalog : list Feature :=
  [ {| footprint := [(84#1, 28#1); (85#1, 28#1); (85#1, 29#1); (84#1, 29#1); (84#1, 28#1)];
       zone := "EPSG:32645";
       locator := "http://its-live-data.s3.amazonaws.com/datacubes/v02/a.zarr" |};
    {| footprint := [(84#1, 28#1); (86#1, 28#1); (86#1, 30#1); (84#1, 28#1)];
       zone := "EPSG:32645";
       locator := "http://elsewhere.s3.amazonaws.com/datacubes/v02/b.zarr" |};
    {| footprint := [(90#1, 28#1); (91#1, 28#1); (91#1, 29#1); (90#1, 29#1)];
       zone := "EPSG:32646";
       locator := "http://its-live-data.s3.amazonaws.com/datacubes/v02/c.zarr" |} ].

(** Every footprint of the catalog is a ring [Polygon] accepts. *)
Definition well_formed (C : list Feature) : bool :=
  forallb (fun f => ring_accepted (footprint f)) C.

(** The features whose footprint contains the point, in catalog order. *)
Definition containing (C : list Feature) (p : coord) : list Feature :=
  filter (fun f => footprint_contains f p) C.

(** The features of a zone, in catalog order. *)
Definition of_zone (C : list Feature) (epsg_code : string) : list Feature :=
  filter (fun f => String.eqb (zone f) epsg_code) C.

(** The data set carries a projection attribute that the projection
    database resolves. *)
Definition projection_usable (crs_known : string -> bool) (input_xr : Dataset)
    : bool :=
  match Xr.mapping_spatial_epsg input_xr with
  | Ok a => crs_known ("epsg:" ++ format_attr a)
  | Raise _ => false
  end.



(** Documents whose single feature lacks one field. *)
Definition no_geometry_catalog : list RawFeature :=
  [ {| raw_ring := None;
       raw_zone := Some "EPSG:32645";
       raw_url := Some "http://its-live-data.s3.amazonaws.com/datacubes/v02/a.zarr" |} ].

Definition no_zone_catalog : list RawFeature :=
  [ {| raw_ring := Some (footprint scenario_feature);
       raw_zone := None;
       raw_url := Some "http://its-live-data.s3.amazonaws.com/datacubes/v02/a.zarr" |} ].

Definition no_url_catalog : list RawFeature :=
  [ {| raw_ring := Some (footprint scenario_feature);
       raw_zone := Some "EPSG:32645";
       raw_url := None |} ].

(* ===================================================================== *)
(** * The footprints of a list of data cubes *)
(* ===================================================================== *)

(** What [get_bbox_group] puts on the map: drawings as those of
    [get_bbox_single], and the grid lines with their fixed meridians. *)
Inductive map_event : Type :=
  | Drawn (d : draw)
  | Gridlines (xlocator : list Q).

(** [input_ls[i]] on a Python list of data sets. *)
Definition cube_getitem (input_ls : list Dataset) (i : nat) : result Dataset :=
  match nth_error input_ls i with
  | Some d => Ok d
  | None => Raise IndexError
  end.

(** The default of the parameter [bounds]. *)
Definition default_bounds : list Q := [-(180#1); 180#1; -(90#1); 90#1]%Q.

Section BoundingBoxGroup.

Variable crs_known : string -> bool.
Variable transform : string -> string -> coord -> coord.

(** The frame built from one data set: the rectangle of the extrema of
    its axes, tagged with its projection and reprojected. *)
Definition footprint_frame (input_xr : Dataset) : result GeoDataFrame :=
  x <- Xr.coords_data input_xr "x" ;;
  xmin <- Xr.array_min x ;;
  xmax <- Xr.array_max x ;;
  y <- Xr.coords_data input_xr "y" ;;
  ymin <- Xr.array_min y ;;
  ymax <- Xr.array_max y ;;
  epsg <- Xr.mapping_spatial_epsg input_xr ;;
  polygon_geom <- Geom.Polygon (rectangle xmin ymin xmax ymax) ;;
  polygon0 <- new_frame crs_known ("epsg:" ++ format_attr epsg) polygon_geom ;;
  to_crs crs_known transform polygon0 "epsg:4326".

(** One turn of the first loop of [get_bbox_group]. *)
Definition group_body (input_ls : list Dataset) (xr_obj : nat)
    (poly_ls : list GeoDataFrame) : result (list GeoDataFrame) :=
  d1 <- cube_getitem input_ls xr_obj ;;
  x <- Xr.coords_data d1 "x" ;;
  xmin <- Xr.array_min x ;;
  d2 <- cube_getitem input_ls xr_obj ;;
  x' <- Xr.coords_data d2 "x" ;;
  xmax <- Xr.array_max x' ;;
  d3 <- cube_getitem input_ls xr_obj ;;
  y <- Xr.coords_data d3 "y" ;;
  ymin <- Xr.array_min y ;;
  d4 <- cube_getitem input_ls xr_obj ;;
  y' <- Xr.coords_data d4 "y" ;;
  ymax <- Xr.array_max y' ;;
  let pts_ls := [(xmin, ymin); (xmax, ymin); (xmax, ymax); (xmin, ymax); (xmin, ymin)] in
  d5 <- cube_getitem input_ls xr_obj ;;
  epsg <- Xr.mapping_spatial_epsg d5 ;;
  let crs := "epsg:" ++ format_attr epsg in
  polygon_geom <- Geom.Polygon pts_ls ;;
  polygon0 <- new_frame crs_known crs polygon_geom ;;
  polygon <- to_crs crs_known transform polygon0 "epsg:4326" ;;
  Ok (poly_ls ++ [polygon])%list.

(** One turn of its second loop: [poly_ls[element].plot(...)]. *)
Definition plot_body (poly_ls : list GeoDataFrame) (element : nat)
    (drawn : list map_event) : result (list map_event) :=
  match nth_error poly_ls element with
  | Some g => Ok (drawn ++ [Drawn (PlotFrame g "red")])%list
  | None => Raise IndexError
  end.

(** [get_bbox_group(input_ls, bounds)]: the value handed back, and what
    was put on the map.  The frames are all built before [bounds] is
    read and before anything is drawn. *)
Definition get_bbox_group (input_ls : list Dataset) (bounds : list Q)
    : result (pyvalue * list map_event) :=
  poly_ls <- for_range (group_body input_ls) 0 (List.length input_ls) [] ;;
  b0 <- point_getitem bounds 0 ;;
  b1 <- point_getitem bounds 1 ;;
  b2 <- point_getitem bounds 2 ;;
  b3 <- point_getitem bounds 3 ;;
  let bounds_format := [b0; b1; b2; b3] in
  drawn <- for_range (plot_body poly_ls) 0 (List.length poly_ls)
             [Drawn StockImg; Drawn (AddFeature "COASTLINE");
              Drawn (AddFeature "LAND"); Drawn (AddFeature "BORDERS");
              Drawn (SetExtent (Some bounds_format));
              Gridlines [-(180#1); -(45#1); 0; 45#1; 180#1]%Q] ;;
  Ok (PyNone, drawn).

End BoundingBoxGroup.

(** The part of the map that does not depend on the data sets. *)
Definition base_map (b0 b1 b2 b3 : Q) : list map_event :=
  [Drawn StockImg; Drawn (AddFeature "COASTLINE");
   Drawn (AddFeature "LAND"); Drawn (AddFeature "BORDERS");
   Drawn (SetExtent (Some [b0; b1; b2; b3]));
   Gridlines [-(180#1); -(45#1); 0; 45#1; 180#1]%Q].

(** The frames of all the data sets of a list, or the exception of the
    first one that has none. *)
Fixpoint footprint_frames (crs_known : string -> bool)
    (transform : string -> string -> coord -> coord)
    (input_ls : list Dataset) : result (list GeoDataFrame) :=
  match input_ls with
  | [] => Ok []
  | d :: ds =>
      g <- footprint_frame crs_known transform d ;;
      gs <- footprint_frames crs_known transform ds ;;
      Ok (g :: gs)
  end.

(* ===================================================================== *)
(** * The cells that chain the helpers *)
(* ===================================================================== *)

Section Cells.

Variable open_dataset : string -> result Dataset.
Variable lexists : string -> bool.

(** [url_ls = find_granule_by_point(itslive_catalog, point)] followed by
    [dc1 = read_in_s3(url_ls[0])]. *)
Definition open_granule_at (input_dict : json) (input_point : list Q)
    : result Dataset :=
  url_ls <- find_granule_by_point input_dict input_point ;;
  match url_ls with
  | [] => Raise IndexError
  | JStr http_url :: _ => read_in_s3 open_dataset http_url
  | _ :: _ => Raise (AttributeError "replace")
  end.

(** [[read_in_s3(x) for x in granule_ls]] *)
Fixpoint read_all (granule_ls : list string) : result (list Dataset) :=
  match granule_ls with
  | [] => Ok []
  | x :: rest =>
      d <- read_in_s3 open_dataset x ;;
      ds <- read_all rest ;;
      Ok (d :: ds)
  end.

(** [granule_ls[0]], the expression that ends the lookup cell. *)
Definition first_granule (granule_ls : list string) : result string :=
  match granule_ls with
  | [] => Raise IndexError
  | x :: _ => Ok x
  end.

(** The lookup cell, [granule_ls = find_granules_by_zone(itslive_catalog,
    epsg_code)] and then [granule_ls[0]], followed by the cell
    [dc_ls = [read_in_s3(x) for x in granule_ls]]. *)
Definition open_granules_of_zone (input_dict : json) (epsg_code : string)
    : result (list Dataset) :=
  granule_ls <- find_granules_by_zone lexists input_dict epsg_code ;;
  _ <- first_granule granule_ls ;;
  read_all granule_ls.

End Cells.

(** The outcome of a call, with a function applied to its value. *)
Definition result_map {A B : Type} (f : A -> B) (m : result A) : result B :=
  match m with
  | Ok a => Ok (f a)
  | Raise e => Raise e
  end.

(** [open_dataset] on each locator in turn, up to the first failure. *)
Fixpoint open_each (open_dataset : string -> result Dataset)
    (urls : list string) : result (list Dataset) :=
  match urls with
  | [] => Ok []
  | u :: rest =>
      d <- open_dataset u ;;
      ds <- open_each open_dataset rest ;;
      Ok (d :: ds)
  end.

(* ===================================================================== *)
(** * Repeated dates along the time axis *)
(* ===================================================================== *)

(** A computation that prints: from what was printed so far to what is
    printed afterwards, with its outcome.  What is printed before an
    exception stays printed. *)
Definition io (A : Type) : Type := list Q -> list Q * result A.

Module IO.

Definition ret {A : Type} (a : A) : io A := fun out => (out, Ok a).

Definition bind {A B : Type} (m : io A) (k : A -> io B) : io B :=
  fun out =>
    match m out with
    | (out', Ok a) => k a out'
    | (out', Raise e) => (out', Raise e)
    end.

Definition lift {A : Type} (r : result A) : io A := fun out => (out, r).

(** [print(v)] *)
Definition print (v : Q) : io unit := fun out => ((out ++ [v])%list, Ok tt).

(** [for i in range(n): body(i)], starting the count at [i0]. *)
Fixpoint for_range (body : nat -> io unit) (i0 n : nat) : io unit :=
  match n with
  | O => ret tt
  | S k => bind (body i0) (fun _ => for_range body (S i0) k)
  end.

End IO.

(** [len(input_xr.mid_date)] *)
Definition mid_date_len (input_xr : Dataset) : result nat :=
  match Xr.assoc (coords input_xr) "mid_date" with
  | Some a => Ok (List.length a)
  | None => Raise (AttributeError "mid_date")
  end.

(** [input_xr.isel(mid_date=i).mid_date.data] *)
Definition isel_mid_date (input_xr : Dataset) (i : nat) : result Q :=
  match Xr.assoc (coords input_xr) "mid_date" with
  | Some a =>
      match nth_error a i with
      | Some v => Ok v
      | None => Raise IndexError
      end
  | None => Raise ValueError
  end.

(** One turn of the loop of [find_dim_duplicates]. *)
Definition dup_body (input_xr : Dataset) (element : nat) : io unit :=
  if (element + 1 <=? 284)%nat then
    IO.bind (IO.lift (isel_mid_date input_xr element)) (fun a =>
    IO.bind (IO.lift (isel_mid_date input_xr (element + 1))) (fun b =>
    if Qeq_bool a b then
      IO.bind (IO.lift (isel_mid_date input_xr element)) IO.print
    else IO.ret tt))
  else IO.ret tt.

(** [find_dim_duplicates(input_xr)] *)
Definition find_dim_duplicates (input_xr : Dataset) : io pyvalue :=
  IO.bind (IO.lift (mid_date_len input_xr)) (fun n =>
  IO.bind (IO.for_range (dup_body input_xr) 0 n) (fun _ =>
  IO.ret PyNone)).

(** The entries of a series that are equal to their successor. *)
Fixpoint adjacent_duplicates (a : list Q) : list Q :=
  match a with
  | v :: ((w :: _) as rest) =>
      if Qeq_bool v w then v :: adjacent_duplicates rest
      else adjacent_duplicates rest
  | _ => []
  end.

(** A data set with the given time axis and nothing else. *)
Definition time_series (dates : list Q) : Dataset :=
  {| coords := [("mid_date", dates)]; mapping := None |}.

(** The point lies strictly inside the rectangle between two corners. *)
Definition strictly_inside (xmin ymin xmax ymax : Q) (p : coord) : bool :=
  Geom.Qltb xmin (fst p) && Geom.Qltb (fst p) xmax
  && Geom.Qltb ymin (snd p) && Geom.Qltb (snd p) ymax.

(* ===================================================================== *)
(** * The zone lookup with the record of its probes *)
(* ===================================================================== *)

Section ZoneLookupProbes.

Variable lexists : string -> bool.

(** One turn of the loop of [find_granules_by_zone], keeping beside
    [url_ls] the locators handed to [fs.lexists] so far. *)
Definition zone_body_probing (input_dict : json) (epsg_code : string)
    (granule : nat) (st : list string * list string)
    : result (list string * list string) :=
  let (url_ls, probed) := st in
  features <- Py.getitem input_dict (KStr "features") ;;
  feature <- Py.getitem features (KInt granule) ;;
  properties <- Py.getitem feature (KStr "properties") ;;
  data_epsg <- Py.getitem properties (KStr "data_epsg") ;;
  if Py.eq_str data_epsg epsg_code then
    features' <- Py.getitem input_dict (KStr "features") ;;
    feature' <- Py.getitem features' (KInt granule) ;;
    properties' <- Py.getitem feature' (KStr "properties") ;;
    http_url <- Py.getitem properties' (KStr "zarr_url") ;;
    s3_url0 <- Py.replace_method http_url "http" "s3" ;;
    let s3_url := PyStr.replace ".s3.amazonaws.com" "" s3_url0 in
    if lexists s3_url
    then Ok ((url_ls ++ [s3_url])%list, (probed ++ [s3_url])%list)
    else Ok (url_ls, (probed ++ [s3_url])%list)
  else Ok (url_ls, probed).

(** [find_granules_by_zone(input_dict, epsg_code)]: the list handed back,
    and the locators probed, in the order of the probes. *)
Definition find_granules_by_zone_probing (input_dict : json)
    (epsg_code : string) : result (list string * list string) :=
  features <- Py.getitem input_dict (KStr "features") ;;
  n <- Py.len features ;;
  for_range (zone_body_probing input_dict epsg_code) 0 n ([], []).

End ZoneLookupProbes.

(** The four corners of the rectangle between two opposite corners,
    counter-clockwise from the lower left one. *)
Definition corners (xmin ymin xmax ymax : Q) : list coord :=
  [(xmin, ymin); (xmax, ymin); (xmax, ymax); (xmin, ymax)].

(** The ways of writing the rectangle as a ring: starting from any of its
    corners, in either direction, with or without the closing copy of the
    first corner. *)
Definition rectangle_listing (start : nat) (clockwise closed : bool)
    (xmin ymin xmax ymax : Q) : list coord :=
  let cs := if clockwise then rev (corners xmin ymin xmax ymax)
            else corners xmin ymin xmax ymax in
  let cs := (skipn start cs ++ firstn start cs)%list in
  if closed then
    match cs with
    | [] => []
    | c :: _ => (cs ++ [c])%list
    end
  else cs.

(** The rectangle of the scenario, and the same listed clockwise from its
    upper right corner. *)
Definition clockwise_catalog : list Feature :=
  [ scenario_feature;
    {| footprint := [(85#1, 29#1); (85#1, 28#1); (84#1, 28#1); (84#1, 29#1); (85#1, 29#1)];
       zone := "EPSG:32645";
       locator := "http://example.com/b.zarr" |} ].

(* ===================================================================== *)
(** * The boundary of a footprint *)
(* ===================================================================== *)

(** The point [p] lies on the closed segment from [a] to [b]: the three
    are collinear and [p] is between [a] and [b] in both coordinates.
    This is the geometric notion, stated without the point locator. *)
Definition lies_on_segment (p a b : coord) : bool :=
  Qeq_bool ((fst b - fst a) * (snd p - snd a)) ((snd b - snd a) * (fst p - fst a))
  && (Qle_bool (Qmin (fst a) (fst b)) (fst p)
      && Qle_bool (fst p) (Qmax (fst a) (fst b)))
  && (Qle_bool (Qmin (snd a) (snd b)) (snd p)
      && Qle_bool (snd p) (Qmax (snd a) (snd b))).

(** The point lies on one of the segments that join the consecutive
    vertices of the ring. *)
Fixpoint lies_on_ring (p : coord) (ring : list coord) : bool :=
  match ring with
  | prev :: ((cur :: _) as rest) =>
      lies_on_segment p prev cur || lies_on_ring p rest
  | _ => false
  end.

(** The point lies on the boundary of the footprint of the feature: on
    the ring of its polygon. *)
Definition on_footprint_boundary (f : Feature) (p : coord) : bool :=
  match footprint_polygon (footprint f) with
  | Some ring => lies_on_ring p ring
  | None => false
  end.

(** Two adjacent tiles, the rectangles (84,28)-(85,29) and
    (85,28)-(86,29); the meridian 85 is their common side. *)
Definition west_tile : Feature :=
  {| footprint := rectangle (84#1) (28#1) (85#1) (29#1);
     zone := "EPSG:32645";
     locator := "http://its-live-data.s3.amazonaws.com/datacubes/v02/west.zarr" |}.

Definition east_tile : Feature :=
  {| footprint := rectangle (85#1) (28#1) (86#1) (29#1);
     zone := "EPSG:32645";
     locator := "http://its-live-data.s3.amazonaws.com/datacubes/v02/east.zarr" |}.

Definition seam_catalog : list Feature := [west_tile; east_tile].

(* ===================================================================== *)
(** * Facts on [str.replace] *)
(* ===================================================================== *)

Module PyStrFacts.
Import PyStr.

Lemma prefix_split (a s : string) :
  prefix a s = true -> s = a ++ drop (String.length a) s.
Proof.
  revert s; induction a as [|x a IH]; intros s H.
  - reflexivity.
  - destruct s as [|y s]; simpl in H; [discriminate|].
    destruct (ascii_dec x y) as [->|]; [|discriminate].
    simpl. f_equal. now apply IH.
Qed.

Lemma prefix_append (a b : string) : prefix a (a ++ b) = true.
Proof.
  induction a as [|x a IH]; simpl; [now destruct b|].
  destruct (ascii_dec x x); [assumption | congruence].
Qed.

Lemma contains_cons (old : string) (c : ascii) (t : string) :
  contains old (String c t) = prefix old (String c t) || contains old t.
Proof. reflexivity. Qed.

Lemma drop_append (a b : string) : drop (String.length a) (a ++ b) = b.
Proof. induction a as [|x a IH]; simpl; [reflexivity | assumption]. Qed.

Lemma drop_length (k : nat) (s : string) :
  (String.length (drop k s) <= String.length s)%nat.
Proof.
  revert s; induction k as [|k IH]; intros [|c t]; simpl; try lia.
  specialize (IH t). lia.
Qed.

Section Scan.

Variables old new : string.
Hypothesis old_nonempty : old <> EmptyString.

Lemma replace_from_skip (k : nat) (s : string) :
  replace_from old new k s = replace_from old new 0 (drop k s).
Proof.
  revert k; induction s as [|c t IH]; intros [|k]; try reflexivity.
  simpl replace_from at 1. simpl drop. apply IH.
Qed.

Lemma replace_unfold (s : string) : replace old new s = replace_from old new 0 s.
Proof. unfold replace. destruct old; [congruence | reflexivity]. Qed.

Lemma replace_from_cons (c : ascii) (t : string) :
  replace_from old new 0 (String c t) =
  if prefix old (String c t)
  then new ++ replace_from old new (String.length old - 1) t
  else String c (replace_from old new 0 t).
Proof. reflexivity. Qed.

Lemma prefix_old_empty : prefix old EmptyString = false.
Proof. destruct old; [congruence | reflexivity]. Qed.

(** An occurrence at the head is replaced and the scan resumes behind it. *)
Lemma replace_hit (s : string) :
  prefix old s = true ->
  replace old new s = new ++ replace old new (drop (String.length old) s).
Proof.
  intros H. rewrite !replace_unfold.
  destruct s as [|c t]; [now rewrite prefix_old_empty in H|].
  rewrite replace_from_cons, H, replace_from_skip.
  destruct old as [|o r]; [congruence|].
  simpl. now rewrite Nat.sub_0_r.
Qed.

(** A character that does not start an occurrence is copied. *)
Lemma replace_miss (c : ascii) (t : string) :
  prefix old (String c t) = false ->
  replace old new (String c t) = String c (replace old new t).
Proof.
  intros H. rewrite !replace_unfold.
  now rewrite replace_from_cons, H.
Qed.

Lemma replace_empty : replace old new EmptyString = EmptyString.
Proof. now rewrite replace_unfold. Qed.

Lemma split_first_unfold (s : string) :
  split_first old s =
  if prefix old s then Some (EmptyString, drop (String.length old) s)
  else match s with
       | EmptyString => None
       | String c t =>
           match split_first old t with
           | Some (a, b) => Some (String c a, b)
           | None => None
           end
       end.
Proof. destruct s; reflexivity. Qed.

(** The result, by the leftmost occurrence. *)
Lemma replace_split_first (s : string) :
  replace old new s =
  match split_first old s with
  | Some (a, b) => a ++ new ++ replace old new b
  | None => s
  end.
Proof.
  induction s as [|c t IH].
  - rewrite replace_empty, split_first_unfold, prefix_old_empty. reflexivity.
  - rewrite split_first_unfold.
    destruct (prefix old (String c t)) eqn:H.
    + now rewrite (replace_hit _ H).
    + rewrite (replace_miss _ _ H), IH.
      destruct (split_first old t) as [[a b]|]; reflexivity.
Qed.

(** [split_first] cuts the text at an occurrence of [old], and no
    occurrence starts before the cut. *)
Lemma split_first_sound (s a b : string) :
  split_first old s = Some (a, b) ->
  s = a ++ old ++ b /\
  forall a1 c a2, a = a1 ++ String c a2 ->
    prefix old (String c a2 ++ old ++ b) = false.
Proof.
  revert a b; induction s as [|c t IH]; intros a b H;
    rewrite split_first_unfold in H.
  - rewrite prefix_old_empty in H. discriminate.
  - destruct (prefix old (String c t)) eqn:P.
    + inversion H; subst. split.
      * now apply prefix_split.
      * intros [|] ? ? E; discriminate.
    + destruct (split_first old t) as [[a' b']|] eqn:S; [|discriminate].
      inversion H; subst. destruct (IH _ _ eq_refl) as [E N]. split.
      * simpl. now rewrite <- E.
      * intros [|x a1] c' a2 E'; simpl in E'; inversion E'; subst.
        -- exact P.
        -- eapply N. reflexivity.
Qed.

Lemma split_first_none (s : string) :
  split_first old s = None -> contains old s = false.
Proof.
  induction s as [|c t IH]; intros H; rewrite split_first_unfold in H.
  - unfold contains. now rewrite prefix_old_empty.
  - destruct (prefix old (String c t)) eqn:P; [discriminate|].
    rewrite contains_cons, P. simpl. apply IH.
    now destruct (split_first old t) as [[? ?]|].
Qed.

(** A text without an occurrence is returned as it is. *)
Lemma replace_absent (s : string) :
  contains old s = false -> replace old new s = s.
Proof.
  induction s as [|c t IH]; intros H.
  - apply replace_empty.
  - rewrite contains_cons in H. apply orb_false_iff in H as [P H].
    rewrite (replace_miss _ _ P). now rewrite IH.
Qed.

(** The scan copies the text up to the leftmost occurrence. *)
Lemma replace_at_leftmost (a b : string) :
  (forall a1 c a2, a = a1 ++ String c a2 ->
     prefix old (String c a2 ++ old ++ b) = false) ->
  replace old new (a ++ old ++ b) = a ++ new ++ replace old new b.
Proof.
  induction a as [|c a IH]; intros H.
  - simpl. rewrite replace_hit by apply prefix_append.
    now rewrite drop_append.
  - change (String c a ++ old ++ b) with (String c (a ++ old ++ b)).
    rewrite replace_miss by (apply (H EmptyString c a); reflexivity).
    rewrite IH; [reflexivity|].
    intros a1 c' a2 E. apply (H (String c a1) c' a2). simpl. now rewrite E.
Qed.

End Scan.

(** Characters that cannot start an occurrence are copied. *)
Lemma replace_past (o : ascii) (r new a s : string) :
  contains (String o EmptyString) a = false ->
  replace (String o r) new (a ++ s) = a ++ replace (String o r) new s.
Proof.
  induction a as [|c a IH]; intros H; [reflexivity|].
  rewrite contains_cons in H. apply orb_false_iff in H as [P H].
  change (String c a ++ s) with (String c (a ++ s)).
  rewrite replace_miss; [| discriminate |].
  - now rewrite IH.
  - simpl in *. destruct (ascii_dec o c); [|reflexivity].
    now destruct a.
Qed.

(** After ['http'] has been replaced by ['s3'], a character other than
    [s] at the head of the result was copied from the head of the text. *)
Lemma http_head_copied (x : ascii) (r t : string) :
  replace "http" "s3" t = String x r -> x <> "s"%char ->
  exists t', t = String x t' /\ r = replace "http" "s3" t'.
Proof.
  intros H Hx. destruct t as [|c t1].
  - discriminate.
  - destruct (prefix "http" (String c t1)) eqn:P.
    + rewrite replace_hit in H by (congruence || assumption).
      simpl in H. inversion H. congruence.
    + rewrite replace_miss in H by (congruence || assumption).
      inversion H; subst. eauto.
Qed.

Lemma http_prefix_reflected (c : ascii) (t : string) :
  prefix "http" (String c (replace "http" "s3" t)) = true ->
  prefix "http" (String c t) = true.
Proof.
  intros H. remember (replace "http" "s3" t) as R eqn:Ht.
  apply prefix_split in H. simpl in H. inversion H as [[Hc HR]].
  rewrite HR in Ht. symmetry in Ht. clear H HR.
  apply http_head_copied in Ht as (t1 & -> & Ht); [|discriminate].
  symmetry in Ht.
  apply http_head_copied in Ht as (t2 & -> & Ht); [|discriminate].
  symmetry in Ht.
  apply http_head_copied in Ht as (t3 & -> & Ht); [|discriminate].
  subst c. simpl. now destruct t3.
Qed.

(** No ['http'] is left in the result of the first replacement. *)
Lemma http_all_replaced (s : string) :
  contains "http" (replace "http" "s3" s) = false.
Proof.
  remember (String.length s) as n eqn:Hn.
  assert (L : (String.length s <= n)%nat) by lia. clear Hn.
  revert s L; induction n as [|n IH]; intros s L.
  - destruct s; [reflexivity | simpl in L; lia].
  - destruct s as [|c t]; [reflexivity|].
    destruct (prefix "http" (String c t)) eqn:P.
    + rewrite replace_hit by (congruence || assumption).
      change (contains "http" ("s3" ++ ?x)) with (contains "http" x).
      apply IH. pose proof (drop_length 3 t). simpl in *. lia.
    + rewrite replace_miss by (congruence || assumption).
      rewrite contains_cons.
      destruct (prefix "http" (String c (replace "http" "s3" t))) eqn:Q.
      * apply http_prefix_reflected in Q. congruence.
      * apply IH. simpl in L. lia.
Qed.

End PyStrFacts.

(* ===================================================================== *)
(** * Locator translation: the claims *)
(* ===================================================================== *)

Import PyStr PyStrFacts.

(** The gateway suffix begins with a dot, so none starts at the slash
    that precedes the key. *)
Lemma gateway_absent_after_slash (key : string) :
  contains ".s3.amazonaws.com" key = false ->
  contains ".s3.amazonaws.com" ("/" ++ key) = false.
Proof. intros H. exact H. Qed.

(** C3: the translation replaces ['http'] by ['s3'] and then deletes
    ['.s3.amazonaws.com']; the catalog address
    [http://its-live-data.s3.amazonaws.com/datacubes/catalog_v02.json]
    becomes [s3://its-live-data/datacubes/catalog_v02.json]; and so does
    every published locator of that shape: scheme [http], a bucket name
    without a dot, the gateway suffix, and a key, where the bucket and the
    key contain no further ['http'] and the key no gateway suffix. *)
Theorem s3_url_of_translation :
  (forall u : string,
     s3_url_of u = replace ".s3.amazonaws.com" "" (replace "http" "s3" u)) /\
  s3_url_of "http://its-live-data.s3.amazonaws.com/datacubes/catalog_v02.json"
    = "s3://its-live-data/datacubes/catalog_v02.json" /\
  (forall bucket key : string,
     contains "http" (bucket ++ ".s3.amazonaws.com/" ++ key) = false ->
     contains "." bucket = false ->
     contains ".s3.amazonaws.com" key = false ->
     s3_url_of ("http://" ++ bucket ++ ".s3.amazonaws.com/" ++ key)
       = "s3://" ++ bucket ++ "/" ++ key).
Proof.
  split; [reflexivity|]. split; [reflexivity|].
  intros bucket key Hh Hdot Hkey. unfold s3_url_of.
  change ("http://" ++ bucket ++ ".s3.amazonaws.com/" ++ key)
    with ("http" ++ "://" ++ bucket ++ ".s3.amazonaws.com/" ++ key).
  rewrite (@replace_hit "http" "s3") by (discriminate || reflexivity).
  change (drop (String.length "http")
            ("http" ++ "://" ++ bucket ++ ".s3.amazonaws.com/" ++ key))
    with ("://" ++ bucket ++ ".s3.amazonaws.com/" ++ key).
  rewrite (@replace_absent "http" "s3") by (discriminate || exact Hh).
  change ("s3" ++ "://" ++ bucket ++ ".s3.amazonaws.com/" ++ key)
    with ("s3://" ++ (bucket ++ ".s3.amazonaws.com/" ++ key)).
  rewrite (replace_past "." "s3.amazonaws.com" "" "s3://") by reflexivity.
  rewrite (replace_past "." "s3.amazonaws.com" "" bucket) by exact Hdot.
  change (".s3.amazonaws.com/" ++ key) with (".s3.amazonaws.com" ++ "/" ++ key).
  rewrite (@replace_hit ".s3.amazonaws.com" "") by (discriminate || reflexivity).
  change (drop (String.length ".s3.amazonaws.com")
            (".s3.amazonaws.com" ++ "/" ++ key)) with ("/" ++ key).
  rewrite (@replace_absent ".s3.amazonaws.com" "")
    by (discriminate || exact (gateway_absent_after_slash key Hkey)).
  reflexivity.
Qed.

Lemma s3_url_of_translation_witness :
  s3_url_of ("http://" ++ "its-live-data" ++ ".s3.amazonaws.com/"
             ++ "datacubes/v02/N40E080/ITS_LIVE_vel_EPSG32645_G0120_X250000_Y4750000.zarr")
  = "s3://" ++ "its-live-data" ++ "/"
    ++ "datacubes/v02/N40E080/ITS_LIVE_vel_EPSG32645_G0120_X250000_Y4750000.zarr".
Proof.
  apply (proj2 (proj2 s3_url_of_translation)); reflexivity.
Defined.

(** C9: both steps are scans of the whole text, not rewrites of a
    prefix.  At the leftmost ['http'], wherever it is, the text before it
    is kept, ['s3'] is put in its place and the rest is treated alike, so
    that no ['http'] is left; at the leftmost ['.s3.amazonaws.com'] of the
    text it is given, the second step keeps what precedes and treats the
    rest alike.  So [https] becomes [s3s], an ['http'] of the path is
    rewritten, and a gateway suffix is deleted in the path as well. *)
Theorem s3_url_of_global_replacement :
  (forall u : string,
     s3_url_of u = replace ".s3.amazonaws.com" "" (replace "http" "s3" u)) /\
  (forall u : string,
     replace "http" "s3" u =
     match split_first "http" u with
     | Some (a, b) => a ++ "s3" ++ replace "http" "s3" b
     | None => u
     end) /\
  (forall u : string, contains "http" (replace "http" "s3" u) = false) /\
  (forall v : string,
     replace ".s3.amazonaws.com" "" v =
     match split_first ".s3.amazonaws.com" v with
     | Some (a, b) => a ++ replace ".s3.amazonaws.com" "" b
     | None => v
     end) /\
  s3_url_of "https://its-live-data.s3.amazonaws.com/datacubes/catalog_v02.json"
    = "s3s://its-live-data/datacubes/catalog_v02.json" /\
  s3_url_of "http://its-live-data.s3.amazonaws.com/http/cube.zarr"
    = "s3://its-live-data/s3/cube.zarr" /\
  s3_url_of "http://its-live-data.s3.amazonaws.com/mirror.s3.amazonaws.com/a.s3.amazonaws.com"
    = "s3://its-live-data/mirror/a".
Proof.
  split; [reflexivity|].
  split; [intros u; apply replace_split_first; discriminate|].
  split; [apply http_all_replaced|].
  split; [|repeat split; reflexivity].
  intros v. rewrite (@replace_split_first ".s3.amazonaws.com" "") by discriminate.
  destruct (split_first ".s3.amazonaws.com" v) as [[a b]|]; reflexivity.
Qed.

(* ===================================================================== *)
(** * The loops on the document of a catalog *)
(* ===================================================================== *)

Lemma for_range_steps {A St : Type} (step : A -> St -> result St)
    (body : nat -> St -> result St) (l : list A) :
  (forall i a st, nth_error l i = Some a -> body i st = step a st) ->
  forall pre rest st, l = (pre ++ rest)%list ->
    for_range body (List.length pre) (List.length rest) st = run_steps step rest st.
Proof.
  intros Hb pre rest; revert pre.
  induction rest as [|a rest IH]; intros pre st E; [reflexivity|].
  simpl. rewrite (Hb (List.length pre) a).
  - destruct (step a st) as [st'|e]; [|reflexivity]. simpl.
    specialize (IH (pre ++ [a])%list st').
    rewrite length_app in IH. simpl in IH.
    rewrite Nat.add_1_r in IH. apply IH.
    now rewrite <- app_assoc.
  - subst l. rewrite nth_error_app2 by lia. now rewrite Nat.sub_diag.
Qed.

Lemma for_range_list {A St : Type} (step : A -> St -> result St)
    (body : nat -> St -> result St) (l : list A) (st : St) :
  (forall i a st, nth_error l i = Some a -> body i st = step a st) ->
  for_range body 0 (List.length l) st = run_steps step l st.
Proof. intros Hb. now apply (for_range_steps step body Hb []). Qed.

Lemma tuples_of_ring (r : list coord) :
  Shapely.tuples_of_json (List.map Doc.coord_json r)
  = Ok (List.map (fun c => [fst c; snd c]) r).
Proof.
  induction r as [|[x y] r IH]; [reflexivity|].
  cbn [List.map Shapely.tuples_of_json]. rewrite IH. reflexivity.
Qed.

Lemma coords_of_ring (r : list coord) :
  Shapely.coords_of_tuples (List.map (fun c => [fst c; snd c]) r) = Ok r.
Proof.
  induction r as [|[x y] r IH]; [reflexivity|].
  cbn [List.map Shapely.coords_of_tuples]. rewrite IH. reflexivity.
Qed.

Lemma rows_of_ring (r : list coord) :
  forallb (fun t => (List.length t =? 2)%nat)
          (List.map (fun c : coord => [fst c; snd c]) r) = true.
Proof. induction r as [|c r IH]; [reflexivity | exact IH]. Qed.

(** The ring written into the document is read back as it was. *)
Lemma shapely_polygon_ring (r : list coord) :
  Shapely.Polygon (Doc.ring_json r) = Geom.Polygon r.
Proof.
  unfold Shapely.Polygon, Doc.ring_json. cbn [Shapely.elements bind].
  rewrite tuples_of_ring. cbn [bind].
  destruct r as [|c r]; [reflexivity|].
  cbn [List.map].
  change (List.length [fst c; snd c]) with 2%nat.
  change (forallb _ ([fst c; snd c] :: List.map _ r))
    with (forallb (fun t => (List.length t =? 2)%nat)
                  (List.map (fun c : coord => [fst c; snd c]) (c :: r))).
  rewrite rows_of_ring.
  pose proof (coords_of_ring (c :: r)) as E. cbn [List.map] in E.
  now rewrite E.
Qed.

Lemma features_of_catalog (C : list RawFeature) :
  Py.getitem (Doc.raw_catalog_json C) (KStr "features")
  = Ok (JArr (List.map Doc.feature_json C)).
Proof. reflexivity. Qed.

Lemma feature_of_catalog (C : list RawFeature) (i : nat) (f : RawFeature) :
  nth_error C i = Some f ->
  Py.getitem (JArr (List.map Doc.feature_json C)) (KInt i) = Ok (Doc.feature_json f).
Proof. intros H. simpl. now rewrite (map_nth_error Doc.feature_json _ _ H). Qed.

Lemma point_body_raw (C : list RawFeature) (p : coord) (i : nat)
    (f : RawFeature) (urls : list json) :
  nth_error C i = Some f ->
  point_body (Doc.raw_catalog_json C) p i urls = raw_point_step p f urls.
Proof.
  intros H. unfold point_body, raw_point_step.
  rewrite features_of_catalog. cbn [bind].
  rewrite (feature_of_catalog _ _ H). cbn [bind].
  destruct f as [[r|] z u]; cbn [raw_ring raw_url]; [|reflexivity].
  change (Py.getitem (Doc.feature_json _) (KStr "geometry"))
    with (Ok (Doc.geometry_json r)).
  cbn [bind].
  change (Py.getitem (Doc.geometry_json r) (KStr "coordinates"))
    with (Ok (JArr [Doc.ring_json r])).
  cbn [bind].
  change (Py.getitem (JArr [Doc.ring_json r]) (KInt 0)) with (Ok (Doc.ring_json r)).
  cbn [bind]. rewrite shapely_polygon_ring.
  destruct (Geom.Polygon r) as [poly|e]; [|reflexivity]. cbn [bind].
  destruct (Geom.contains poly p); [|reflexivity].
  destruct z as [z|], u as [u|]; reflexivity.
Qed.

Lemma zone_body_raw (lexists : string -> bool) (C : list RawFeature)
    (epsg_code : string) (i : nat) (f : RawFeature) (urls : list string) :
  nth_error C i = Some f ->
  zone_body lexists (Doc.raw_catalog_json C) epsg_code i urls
  = raw_zone_step lexists epsg_code f urls.
Proof.
  intros H. unfold zone_body, raw_zone_step.
  rewrite features_of_catalog. cbn [bind].
  rewrite (feature_of_catalog _ _ H). cbn [bind].
  destruct f as [r [z|] u]; cbn [raw_zone raw_url].
  - assert (P : Py.getitem (Doc.feature_json
                 {| raw_ring := r; raw_zone := Some z; raw_url := u |}) (KStr "properties")
               = Ok (JObj (Doc.field "data_epsg" JStr (Some z)
                           ++ Doc.field "zarr_url" JStr u)%list))
      by now destruct r.
    rewrite P. cbn [bind].
    change (Py.getitem (JObj (Doc.field "data_epsg" JStr (Some z) ++ _)%list)
              (KStr "data_epsg")) with (Ok (JStr z)).
    cbn [bind Py.eq_str].
    destruct (String.eqb z epsg_code); [|reflexivity].
    destruct u as [u|]; [|reflexivity].
    change (Py.getitem (JObj (Doc.field "data_epsg" JStr (Some z)
                              ++ Doc.field "zarr_url" JStr (Some u))%list)
              (KStr "zarr_url")) with (Ok (JStr u)).
    cbn [bind Py.replace_method]. fold (s3_url_of u).
    reflexivity.
  - now destruct r, u.
Qed.

Lemma find_granule_by_point_raw (C : list RawFeature) (lon lat : Q) :
  find_granule_by_point (Doc.raw_catalog_json C) [lon; lat]
  = run_steps (raw_point_step (lon, lat)) C [].
Proof.
  unfold find_granule_by_point. cbn [point_getitem nth_error bind].
  rewrite features_of_catalog. cbn [bind Py.len].
  rewrite length_map. apply for_range_list.
  intros i f st H. now apply point_body_raw.
Qed.

Lemma find_granules_by_zone_raw (lexists : string -> bool)
    (C : list RawFeature) (epsg_code : string) :
  find_granules_by_zone lexists (Doc.raw_catalog_json C) epsg_code
  = run_steps (raw_zone_step lexists epsg_code) C [].
Proof.
  unfold find_granules_by_zone.
  rewrite features_of_catalog. cbn [bind Py.len].
  rewrite length_map. apply for_range_list.
  intros i f st H. now apply zone_body_raw.
Qed.

Lemma polygon_accepted (r : list coord) :
  ring_accepted r = true -> Geom.Polygon r = Ok (footprint_polygon r).
Proof.
  intros H. unfold footprint_polygon.
  destruct (Geom.Polygon r) as [poly|e] eqn:E; [reflexivity|].
  exfalso. unfold Geom.Polygon in E.
  destruct r as [|a [|b [|c r]]]; try discriminate.
  cbn [List.length Nat.ltb Nat.leb Nat.eqb] in E.
  destruct r; [discriminate|].
  destruct (Geom.coord_eqb _ _); discriminate.
Qed.

Lemma raw_point_urls_cons (p : coord) (f : RawFeature) (C : list RawFeature) :
  raw_point_urls p (f :: C) = (raw_point_urls p [f] ++ raw_point_urls p C)%list.
Proof. unfold raw_point_urls. simpl. now rewrite app_nil_r. Qed.

Lemma raw_zone_urls_cons (z : string) (f : RawFeature) (C : list RawFeature) :
  raw_zone_urls z (f :: C) = (raw_zone_urls z [f] ++ raw_zone_urls z C)%list.
Proof. unfold raw_zone_urls. simpl. now rewrite app_nil_r. Qed.

(** One turn of the point lookup: the locator is appended when the ring
    contains the point, and a key that is read and missing stops the loop. *)
Lemma raw_point_step_spec (p : coord) (f : RawFeature) (urls : list json) :
  match raw_ring f with Some r => ring_accepted r | None => true end = true ->
  raw_point_step p f urls =
  if point_reads_ok p f then Ok (urls ++ raw_point_urls p [f])%list
  else Raise (KeyError (KStr match raw_ring f with
                             | None => "geometry"
                             | Some _ => "zarr_url"
                             end)).
Proof.
  intros H. unfold raw_point_step, point_reads_ok, raw_point_urls.
  destruct f as [[r|] z u]; cbn [raw_ring raw_url flat_map] in *; [|reflexivity].
  rewrite (polygon_accepted _ H). cbn [bind].
  destruct (Geom.contains (footprint_polygon r) p), u as [u|];
    try reflexivity; cbn [app]; now rewrite app_nil_r.
Qed.

Lemma run_point_ok (p : coord) (C : list RawFeature) (urls : list json) :
  rings_accepted C = true ->
  forallb (point_reads_ok p) C = true ->
  run_steps (raw_point_step p) C urls = Ok (urls ++ raw_point_urls p C)%list.
Proof.
  revert urls; induction C as [|f C IH]; intros urls HA HR.
  - simpl. now rewrite app_nil_r.
  - cbn [rings_accepted forallb] in HA, HR.
    apply andb_true_iff in HA as [HA1 HA2], HR as [HR1 HR2].
    cbn [run_steps]. rewrite (raw_point_step_spec _ _ _ HA1), HR1. cbn [bind].
    rewrite (IH _ HA2 HR2), (raw_point_urls_cons p f C). now rewrite <- app_assoc.
Qed.

Lemma run_point_fail (p : coord) (C : list RawFeature) (urls : list json) :
  rings_accepted C = true ->
  forallb (point_reads_ok p) C = false ->
  exists k, run_steps (raw_point_step p) C urls = Raise (KeyError (KStr k))
            /\ (k = "geometry" \/ k = "zarr_url").
Proof.
  revert urls; induction C as [|f C IH]; intros urls HA HR; [discriminate|].
  cbn [rings_accepted forallb] in HA, HR.
  apply andb_true_iff in HA as [HA1 HA2].
  cbn [run_steps]. rewrite (raw_point_step_spec _ _ _ HA1).
  destruct (point_reads_ok p f).
  - cbn [bind]. apply IH; assumption.
  - cbn [bind]. destruct (raw_ring f); eauto.
Qed.

(** One turn of the zone lookup. *)
Lemma raw_zone_step_spec (lexists : string -> bool) (z : string)
    (f : RawFeature) (urls : list string) :
  raw_zone_step lexists z f urls =
  if zone_reads_ok z f then Ok (urls ++ filter lexists (raw_zone_urls z [f]))%list
  else Raise (KeyError (KStr match raw_zone f with
                             | None => "data_epsg"
                             | Some _ => "zarr_url"
                             end)).
Proof.
  unfold raw_zone_step, zone_reads_ok, raw_zone_urls.
  destruct f as [r [z'|] u]; cbn [raw_zone raw_url flat_map]; [|reflexivity].
  destruct (String.eqb z' z), u as [u|]; cbn [app filter];
    try reflexivity; try now rewrite app_nil_r.
  now destruct (lexists (s3_url_of u)); [|rewrite app_nil_r].
Qed.

Lemma run_zone_ok (lexists : string -> bool) (z : string)
    (C : list RawFeature) (urls : list string) :
  forallb (zone_reads_ok z) C = true ->
  run_steps (raw_zone_step lexists z) C urls
  = Ok (urls ++ filter lexists (raw_zone_urls z C))%list.
Proof.
  revert urls; induction C as [|f C IH]; intros urls HR.
  - simpl. now rewrite app_nil_r.
  - cbn [forallb] in HR. apply andb_true_iff in HR as [HR1 HR2].
    cbn [run_steps]. rewrite raw_zone_step_spec, HR1. cbn [bind].
    rewrite (IH _ HR2), (raw_zone_urls_cons z f C), filter_app.
    now rewrite <- app_assoc.
Qed.

Lemma run_zone_fail (lexists : string -> bool) (z : string)
    (C : list RawFeature) (urls : list string) :
  forallb (zone_reads_ok z) C = false ->
  exists k, run_steps (raw_zone_step lexists z) C urls = Raise (KeyError (KStr k))
            /\ (k = "data_epsg" \/ k = "zarr_url").
Proof.
  revert urls; induction C as [|f C IH]; intros urls HR; [discriminate|].
  cbn [forallb] in HR. cbn [run_steps]. rewrite raw_zone_step_spec.
  destruct (zone_reads_ok z f).
  - cbn [bind]. apply IH; assumption.
  - cbn [bind]. destruct (raw_zone f); eauto.
Qed.

(* ===================================================================== *)
(** * The lookups on a catalog of the data model *)
(* ===================================================================== *)

Lemma rings_accepted_raw_of (C : list Feature) :
  rings_accepted (List.map raw_of C) = well_formed C.
Proof.
  unfold rings_accepted, well_formed.
  induction C as [|f C IH]; [reflexivity|]. simpl. now rewrite IH.
Qed.

Lemma point_reads_ok_raw_of (p : coord) (C : list Feature) :
  forallb (point_reads_ok p) (List.map raw_of C) = true.
Proof.
  induction C as [|f C IH]; [reflexivity|].
  simpl. rewrite IH. unfold point_reads_ok. simpl.
  now destruct (Geom.contains _ _).
Qed.

Lemma zone_reads_ok_raw_of (z : string) (C : list Feature) :
  forallb (zone_reads_ok z) (List.map raw_of C) = true.
Proof.
  induction C as [|f C IH]; [reflexivity|].
  simpl. rewrite IH. unfold zone_reads_ok. simpl.
  now destruct (String.eqb _ _).
Qed.

Lemma raw_point_urls_raw_of (p : coord) (C : list Feature) :
  raw_point_urls p (List.map raw_of C)
  = List.map (fun f => JStr (locator f)) (containing C p).
Proof.
  unfold raw_point_urls, containing.
  induction C as [|f C IH]; [reflexivity|].
  simpl. rewrite IH. unfold footprint_contains.
  now destruct (Geom.contains _ _).
Qed.

Lemma raw_zone_urls_raw_of (z : string) (C : list Feature) :
  raw_zone_urls z (List.map raw_of C)
  = List.map (fun f => s3_url_of (locator f)) (of_zone C z).
Proof.
  unfold raw_zone_urls, of_zone.
  induction C as [|f C IH]; [reflexivity|].
  simpl. rewrite IH. now destruct (String.eqb _ _).
Qed.

Lemma point_lookup_value (C : list Feature) (lon lat : Q) :
  well_formed C = true ->
  find_granule_by_point (Doc.catalog_json C) [lon; lat]
  = Ok (List.map (fun f => JStr (locator f)) (containing C (lon, lat))).
Proof.
  intros H. unfold Doc.catalog_json.
  rewrite find_granule_by_point_raw, run_point_ok.
  - now rewrite raw_point_urls_raw_of.
  - now rewrite rings_accepted_raw_of.
  - apply point_reads_ok_raw_of.
Qed.

Lemma zone_lookup_value (lexists : string -> bool) (C : list Feature)
    (epsg_code : string) :
  find_granules_by_zone lexists (Doc.catalog_json C) epsg_code
  = Ok (filter lexists
          (List.map (fun f => s3_url_of (locator f)) (of_zone C epsg_code))).
Proof.
  unfold Doc.catalog_json.
  rewrite find_granules_by_zone_raw, run_zone_ok.
  - now rewrite raw_zone_urls_raw_of.
  - apply zone_reads_ok_raw_of.
Qed.

Lemma NoDup_locators_filter (P : Feature -> bool) (C : list Feature) :
  NoDup (List.map locator C) ->
  NoDup (List.map (fun f => JStr (locator f)) (filter P C)).
Proof.
  induction C as [|f C IH]; intros H; [constructor|].
  inversion H as [|? ? Hn Hd]; subst. simpl.
  destruct (P f); [|now apply IH].
  simpl. constructor; [|now apply IH].
  intros Hin. apply Hn. apply in_map_iff in Hin as (g & E & Hg).
  inversion E as [E'].
  apply in_map. now apply filter_In in Hg as [Hg _].
Qed.

(** C1: on a catalog of the data model, the point lookup returns the
    locators of exactly the features whose footprint polygon contains the
    point: one entry for each such feature, in catalog order.  So a value
    is returned if and only if it is the locator of a containing feature,
    the result is empty when no footprint contains the point, and it has
    no repeated entry when the locators of the catalog are distinct. *)
Theorem find_granule_by_point_exact (C : list Feature) (lon lat : Q) :
  well_formed C = true ->
  exists urls : list json,
    find_granule_by_point (Doc.catalog_json C) [lon; lat] = Ok urls /\
    urls = List.map (fun f => JStr (locator f)) (containing C (lon, lat)) /\
    (forall u, In u urls <->
       exists f, In f C /\ footprint_contains f (lon, lat) = true
                 /\ u = JStr (locator f)) /\
    ((forall f, In f C -> footprint_contains f (lon, lat) = false) -> urls = []) /\
    (NoDup (List.map locator C) -> NoDup urls).
Proof.
  intros H. eexists. split; [now apply point_lookup_value|].
  split; [reflexivity|]. unfold containing. repeat split.
  - intros Hin. apply in_map_iff in Hin as (f & E & Hf).
    apply filter_In in Hf as [Hf Hc]. now exists f.
  - intros (f & Hf & Hc & ->). apply in_map_iff. exists f. split; [reflexivity|].
    now apply filter_In.
  - intros Hnone. induction C as [|f C IH]; [reflexivity|].
    simpl. rewrite (Hnone f) by now left.
    apply IH.
    + simpl in H. now apply andb_true_iff in H as [_ H].
    + intros g Hg. apply Hnone. now right.
  - apply NoDup_locators_filter.
Qed.

Lemma find_granule_by_point_exact_witness :
  exists urls : list json,
    find_granule_by_point (Doc.catalog_json scenario_catalog) [169#2; 57#2]
      = Ok urls /\
    urls = [JStr "http://example.com/a.zarr"].
Proof.
  destruct (@find_granule_by_point_exact scenario_catalog (169#2) (57#2) eq_refl)
    as (urls & E & V & _).
  exists urls. split; [exact E | exact V].
Defined.

(** C4: on a catalog of the data model, the zone lookup returns, in
    catalog order, the translated locators of the features of the zone for
    which the existence probe answers yes.  Every returned locator is the
    translation of the locator of a feature of that zone and was found by
    the probe; a feature whose translated locator the probe does not find
    leaves no entry, and the call still returns normally. *)
Theorem find_granules_by_zone_reachable (lexists : string -> bool)
    (C : list Feature) (epsg_code : string) :
  exists urls : list string,
    find_granules_by_zone lexists (Doc.catalog_json C) epsg_code = Ok urls /\
    urls = filter lexists
             (List.map (fun f => s3_url_of (locator f)) (of_zone C epsg_code)) /\
    (forall u, In u urls ->
       lexists u = true /\
       exists f, In f C /\ zone f = epsg_code /\ u = s3_url_of (locator f)) /\
    (forall u, lexists u = false -> ~ In u urls).
Proof.
  eexists. split; [apply zone_lookup_value|]. split; [reflexivity|]. split.
  - intros u Hin. apply filter_In in Hin as [Hin Hl]. split; [exact Hl|].
    apply in_map_iff in Hin as (f & E & Hf).
    apply filter_In in Hf as [Hf Hz]. apply String.eqb_eq in Hz.
    exists f. now repeat split.
  - intros u Hl Hin. apply filter_In in Hin as [_ Hin]. congruence.
Qed.

Lemma find_granules_by_zone_reachable_witness :
  find_granules_by_zone sample_lexists (Doc.catalog_json sample_catalog) "EPSG:32645"
  = Ok ["s3://its-live-data/datacubes/v02/a.zarr"].
Proof.
  destruct (find_granules_by_zone_reachable sample_lexists sample_catalog "EPSG:32645")
    as (urls & E & V & _).
  rewrite E, V. reflexivity.
Defined.

Lemma boundary_not_contained (f : Feature) (p : coord) :
  on_boundary f p = true -> footprint_contains f p = false.
Proof.
  unfold on_boundary, footprint_contains, footprint_location, Geom.contains.
  destruct (footprint_polygon (footprint f)) as [ring|]; [|reflexivity].
  now destruct (Geom.locate_in_ring p ring).
Qed.

Lemma boundary_covered (f : Feature) (p : coord) :
  on_boundary f p = true ->
  Geom.covers (footprint_polygon (footprint f)) p = true.
Proof.
  unfold on_boundary, footprint_location, Geom.covers.
  destruct (footprint_polygon (footprint f)) as [ring|]; [|discriminate].
  now destruct (Geom.locate_in_ring p ring).
Qed.

Lemma Qle_bool_false_iff (a b : Q) : Qle_bool a b = false <-> (b < a)%Q.
Proof.
  split.
  - intros H. apply Qnot_le_lt. intros L. apply Qle_bool_iff in L. congruence.
  - intros H. destruct (Qle_bool a b) eqn:E; [|reflexivity].
    apply Qle_bool_iff in E. lra.
Qed.

Lemma Qltb_lt (a b : Q) : Geom.Qltb a b = true <-> (a < b)%Q.
Proof.
  unfold Geom.Qltb. rewrite negb_true_iff. apply Qle_bool_false_iff.
Qed.

Lemma Qltb_ge (a b : Q) : Geom.Qltb a b = false <-> (b <= a)%Q.
Proof.
  unfold Geom.Qltb. rewrite negb_false_iff. apply Qle_bool_iff.
Qed.

Lemma coord_eqb_iff (a b : coord) :
  Geom.coord_eqb a b = true <-> (fst a == fst b /\ snd a == snd b)%Q.
Proof.
  unfold Geom.coord_eqb. now rewrite andb_true_iff, !Qeq_bool_iff.
Qed.

Lemma product_zero (a b : Q) : (a * b == 0)%Q -> ~ (a == 0)%Q -> (b == 0)%Q.
Proof.
  intros H Ha. destruct (Qmult_integral _ _ H); [contradiction | assumption].
Qed.

Lemma on_segment_cases (px py x1 y1 x2 y2 : Q) :
  ((x1 - x2) * (py - y2) == (y1 - y2) * (px - x2))%Q ->
  (Qmin y2 y1 <= py)%Q -> (py <= Qmax y2 y1)%Q ->
  (px == x2 /\ py == y2)%Q \/
  (y1 == py /\ y2 == py)%Q \/
  ((py < y1 /\ y2 <= py) \/ (py < y2 /\ y1 <= py))%Q \/
  (px == x1 /\ py == y1)%Q.
Proof.
  intros HC Hlo Hhi.
  destruct (Q.min_spec y2 y1) as [[L Emin]|[L Emin]];
    destruct (Q.max_spec y2 y1) as [[L' Emax]|[L' Emax]]; try lra.
  - (* y2 < y1 *)
    destruct (Qlt_le_dec py y1) as [D|D]; [right; right; left; left; lra|].
    assert (E : (py == y1)%Q) by lra.
    right; right; right. split; [|exact E].
    assert (Z : ((y1 - y2) * (x1 - px) == 0)%Q).
    { rewrite E in HC. lra. }
    apply product_zero in Z; lra.
  - (* y1 <= y2 *)
    destruct (Qlt_le_dec y1 y2) as [S|S].
    + destruct (Qlt_le_dec py y2) as [D|D]; [right; right; left; right; lra|].
      assert (E : (py == y2)%Q) by lra.
      left. split; [|exact E].
      assert (Z : ((y1 - y2) * (px - x2) == 0)%Q).
      { rewrite E in HC. lra. }
      apply product_zero in Z; lra.
    + right; left. lra.
Qed.

(** A counter that has found the point on a segment keeps it. *)
Lemma count_segment_keeps (p p1 p2 : coord) (c : Geom.counter) :
  Geom.on_segment c = true ->
  Geom.on_segment (Geom.count_segment p p1 p2 c) = true.
Proof.
  intros H. unfold Geom.count_segment.
  repeat match goal with
         | |- context [if ?b then _ else _] => destruct b
         | |- context [match ?o with Eq => _ | Lt => _ | Gt => _ end] => destruct o
         end; cbn [Geom.on_segment]; auto.
Qed.

Lemma count_ring_keeps (p : coord) (ring : list coord) (c : Geom.counter) :
  Geom.on_segment c = true ->
  Geom.on_segment (Geom.count_ring p ring c) = true.
Proof.
  revert c; induction ring as [|prev ring IH]; intros c H; [exact H|].
  destruct ring as [|cur rest]; [exact H|].
  change (Geom.count_ring p (prev :: cur :: rest) c)
    with (Geom.count_ring p (cur :: rest) (Geom.count_segment p cur prev c)).
  apply IH. now apply count_segment_keeps.
Qed.

(** A segment that ends at the point finds it. *)
Lemma count_segment_at_end (p p1 p2 : coord) (c : Geom.counter) :
  Geom.coord_eqb p p2 = true ->
  Geom.on_segment (Geom.count_segment p p1 p2 c) = true.
Proof.
  intros H. unfold Geom.count_segment. rewrite H.
  apply coord_eqb_iff in H as [Hx _].
  replace (Geom.Qltb (fst p2) (fst p)) with false
    by (symmetry; apply Qltb_ge; lra).
  now rewrite andb_false_r.
Qed.

(** A segment on which the point lies finds it, unless the point is the
    vertex the segment starts from in the order of the count, which the
    next segment ends at. *)
Lemma count_segment_on (p cur prev : coord) (c : Geom.counter) :
  lies_on_segment p prev cur = true ->
  Geom.on_segment (Geom.count_segment p cur prev c) = true
  \/ Geom.coord_eqb p cur = true.
Proof.
  destruct p as [px py], cur as [x1 y1], prev as [x2 y2].
  unfold lies_on_segment. cbn [fst snd].
  rewrite !andb_true_iff, Qeq_bool_iff, !Qle_bool_iff.
  intros [[HC [Hx1 Hx2]] [Hy1 Hy2]].
  destruct (@on_segment_cases px py x1 y1 x2 y2 HC Hy1 Hy2)
    as [[Ex Ey]|[[E1 E2]|[S|[Ex Ey]]]].
  - left. apply count_segment_at_end. apply coord_eqb_iff. now split.
  - left. unfold Geom.count_segment. cbn [fst snd Geom.crossings].
    destruct (Geom.Qltb x1 px && Geom.Qltb x2 px) eqn:T1.
    { apply andb_true_iff in T1 as [A B]. apply Qltb_lt in A, B.
      exfalso. destruct (Q.max_spec x2 x1) as [[? M]|[? M]]; lra. }
    destruct (Geom.coord_eqb (px, py) (x2, y2)); [reflexivity|].
    replace (Qeq_bool y1 py) with true by (symmetry; now apply Qeq_bool_iff).
    replace (Qeq_bool y2 py) with true by (symmetry; now apply Qeq_bool_iff).
    cbn [andb].
    replace (Qle_bool (Qmin x1 x2) px) with true
      by (symmetry; apply Qle_bool_iff;
          destruct (Q.min_spec x2 x1) as [[? M]|[? M]];
          destruct (Q.min_spec x1 x2) as [[? M']|[? M']]; lra).
    replace (Qle_bool px (Qmax x1 x2)) with true
      by (symmetry; apply Qle_bool_iff;
          destruct (Q.max_spec x2 x1) as [[? M]|[? M]];
          destruct (Q.max_spec x1 x2) as [[? M']|[? M']]; lra).
    reflexivity.
  - left. unfold Geom.count_segment. cbn [fst snd Geom.crossings].
    destruct (Geom.Qltb x1 px && Geom.Qltb x2 px) eqn:T1.
    { apply andb_true_iff in T1 as [A B]. apply Qltb_lt in A, B.
      exfalso. destruct (Q.max_spec x2 x1) as [[? M]|[? M]]; lra. }
    destruct (Geom.coord_eqb (px, py) (x2, y2)); [reflexivity|].
    destruct (Qeq_bool y1 py && Qeq_bool y2 py) eqn:T3.
    { apply andb_true_iff in T3 as [A B]. apply Qeq_bool_iff in A, B.
      exfalso. lra. }
    replace ((Geom.Qltb py y1 && Qle_bool y2 py)
             || (Geom.Qltb py y2 && Qle_bool y1 py)) with true.
    2:{ symmetry. apply orb_true_iff.
        rewrite !andb_true_iff, !Qltb_lt, !Qle_bool_iff. exact S. }
    unfold Geom.orientation_index. cbn [fst snd].
    replace (Qcompare ((x2 - x1) * (py - y1)) ((y2 - y1) * (px - x1))) with Eq
      by (symmetry; apply (proj1 (Qeq_alt _ _)); lra).
    reflexivity.
  - right. apply coord_eqb_iff. now split.
Qed.

Lemma count_ring_at_first (p prev cur : coord) (rest : list coord)
    (c : Geom.counter) :
  Geom.coord_eqb p prev = true ->
  Geom.on_segment (Geom.count_ring p (prev :: cur :: rest) c) = true.
Proof.
  intros H.
  change (Geom.count_ring p (prev :: cur :: rest) c)
    with (Geom.count_ring p (cur :: rest) (Geom.count_segment p cur prev c)).
  now apply count_ring_keeps, count_segment_at_end.
Qed.

(** The count along a ring finds a point that lies on one of its
    segments, unless the point is the last vertex of the ring. *)
Lemma count_ring_on (p d : coord) (ring : list coord) (c : Geom.counter) :
  lies_on_ring p ring = true ->
  Geom.on_segment (Geom.count_ring p ring c) = true
  \/ Geom.coord_eqb p (last ring d) = true.
Proof.
  revert c; induction ring as [|prev ring IH]; intros c H; [discriminate|].
  destruct ring as [|cur rest]; [discriminate|].
  change (lies_on_ring p (prev :: cur :: rest))
    with (lies_on_segment p prev cur || lies_on_ring p (cur :: rest)) in H.
  change (Geom.count_ring p (prev :: cur :: rest) c)
    with (Geom.count_ring p (cur :: rest) (Geom.count_segment p cur prev c)).
  change (last (prev :: cur :: rest) d) with (last (cur :: rest) d).
  apply orb_true_iff in H as [H|H]; [|now apply IH].
  destruct (@count_segment_on p cur prev c H) as [M|E].
  - left. now apply count_ring_keeps.
  - destruct rest as [|next rest]; [right; exact E|].
    left. now apply count_ring_at_first.
Qed.

Lemma coord_eqb_refl (a : coord) : Geom.coord_eqb a a = true.
Proof. apply coord_eqb_iff. split; reflexivity. Qed.

(** The ring of a polygon has two vertices at least and ends where it
    starts. *)
Lemma polygon_ring_closed (shell ring : list coord) :
  Geom.Polygon shell = Ok (Some ring) ->
  exists first second rest,
    ring = first :: second :: rest /\
    Geom.coord_eqb first (last ring first) = true.
Proof.
  unfold Geom.Polygon.
  destruct shell as [|a [|b [|c [|d r]]]]; try discriminate.
  - cbn. intros [= <-]. exists a, b, [c; a]. split; [reflexivity|].
    apply coord_eqb_refl.
  - cbn [List.length Nat.ltb Nat.leb Nat.eqb].
    destruct (Geom.coord_eqb a (last (a :: b :: c :: d :: r) a)) eqn:E;
      intros [= <-].
    + exists a, b, (c :: d :: r). split; [reflexivity | exact E].
    + exists a, b, (c :: d :: r ++ [a])%list. split; [reflexivity|].
      change (a :: b :: c :: d :: r ++ [a])%list
        with ((a :: b :: c :: d :: r) ++ [a])%list.
      rewrite last_last. apply coord_eqb_refl.
Qed.

(** A point that lies on the ring of a polygon is located on its
    boundary. *)
Lemma ring_point_located (shell ring : list coord) (p : coord) :
  Geom.Polygon shell = Ok (Some ring) ->
  lies_on_ring p ring = true ->
  Geom.locate_in_ring p ring = Geom.Boundary.
Proof.
  intros HP HR.
  destruct (@polygon_ring_closed shell ring HP) as (first & second & rest & -> & HC).
  unfold Geom.locate_in_ring.
  destruct (@count_ring_on p first _
              {| Geom.on_segment := false; Geom.crossings := 0 |} HR)
    as [M|E].
  - now rewrite M.
  - rewrite count_ring_at_first; [reflexivity|].
    apply coord_eqb_iff in E as [Ex Ey]. apply coord_eqb_iff in HC as [Cx Cy].
    apply coord_eqb_iff. split; [now rewrite Ex, Cx | now rewrite Ey, Cy].
Qed.

(** The locator answers [Boundary] for every point of the boundary of a
    footprint. *)
Lemma footprint_boundary_located (f : Feature) (p : coord) :
  on_footprint_boundary f p = true -> on_boundary f p = true.
Proof.
  unfold on_footprint_boundary, on_boundary, footprint_location, footprint_polygon.
  destruct (Geom.Polygon (footprint f)) as [[ring|]|e] eqn:HP; try discriminate.
  intros HR. now rewrite (@ring_point_located _ ring p HP HR).
Qed.

Lemma locator_unique (C : list Feature) (f g : Feature) :
  NoDup (List.map locator C) -> In f C -> In g C ->
  locator f = locator g -> f = g.
Proof.
  induction C as [|h C IH]; [contradiction|].
  cbn [List.map]. intros ND Hf Hg E. inversion ND as [|? ? Hn ND']; subst.
  destruct Hf as [<-|Hf], Hg as [<-|Hg]; [reflexivity | | | now apply IH].
  - exfalso. apply Hn. rewrite E. now apply in_map.
  - exfalso. apply Hn. rewrite <- E. now apply in_map.
Qed.

(** C2 fails on the code: the point (85, 28.5) lies on the common side of
    two adjacent tiles, on the boundary of the footprint of each, and the
    lookup returns the locator of neither. *)
Lemma seam_point_not_reported :
  on_footprint_boundary west_tile (85#1, 57#2) = true /\
  on_footprint_boundary east_tile (85#1, 57#2) = true /\
  find_granule_by_point (Doc.catalog_json seam_catalog) [85#1; 57#2] = Ok [] /\
  ~ (forall f urls,
       In f seam_catalog ->
       on_footprint_boundary f (85#1, 57#2) = true ->
       find_granule_by_point (Doc.catalog_json seam_catalog) [85#1; 57#2]
         = Ok urls ->
       In (JStr (locator f)) urls).
Proof.
  split; [reflexivity|]. split; [reflexivity|]. split; [reflexivity|].
  intros H. exact (H west_tile [] (or_introl eq_refl) eq_refl eq_refl).
Qed.

(** C2: the code tests with [contains], which leaves the boundary out,
    where the claim, and the description of the lookup as returning the
    cubes whose footprint covers the point, include it.  On a catalog
    whose footprints [Polygon] accepts, for a feature of the catalog and a
    point that lies on a segment of the ring of its footprint, the
    boundary-inclusive predicate [covers] holds and [contains] fails: the
    lookup returns the locators of the containing features, the feature
    is not among them, its locator is not in the result when the locators
    of the catalog are distinct, and the result is empty when the catalog
    holds that feature alone. *)
Theorem find_granule_by_point_misses_boundary
    (C : list Feature) (lon lat : Q) (f : Feature) :
  well_formed C = true ->
  In f C ->
  on_footprint_boundary f (lon, lat) = true ->
  Geom.covers (footprint_polygon (footprint f)) (lon, lat) = true /\
  footprint_contains f (lon, lat) = false /\
  exists urls : list json,
    find_granule_by_point (Doc.catalog_json C) [lon; lat] = Ok urls /\
    urls = List.map (fun g => JStr (locator g)) (containing C (lon, lat)) /\
    ~ In f (containing C (lon, lat)) /\
    (NoDup (List.map locator C) -> ~ In (JStr (locator f)) urls) /\
    (C = [f] -> urls = []).
Proof.
  intros HW Hf HB. apply footprint_boundary_located in HB.
  pose proof (@boundary_not_contained f (lon, lat) HB) as HC.
  assert (HN : ~ In f (containing C (lon, lat))).
  { unfold containing. intros Hin. apply filter_In in Hin as [_ Hin]. congruence. }
  split; [now apply boundary_covered|]. split; [exact HC|].
  eexists. split; [now apply point_lookup_value|]. split; [reflexivity|].
  split; [exact HN|]. split.
  - intros ND Hin. apply in_map_iff in Hin as (g & E & Hg).
    injection E as E.
    assert (Hg' : In g C) by (unfold containing in Hg; now apply filter_In in Hg).
    rewrite (@locator_unique C g f ND Hg' Hf E) in Hg. contradiction.
  - intros ->. unfold containing. cbn [filter]. now rewrite HC.
Qed.

Lemma find_granule_by_point_misses_boundary_witness :
  on_footprint_boundary west_tile (85#1, 57#2) = true /\
  Geom.covers (footprint_polygon (footprint west_tile)) (85#1, 57#2) = true /\
  footprint_contains west_tile (85#1, 57#2) = false /\
  exists urls : list json,
    find_granule_by_point (Doc.catalog_json seam_catalog) [85#1; 57#2] = Ok urls /\
    ~ In (JStr (locator west_tile)) urls.
Proof.
  split; [reflexivity|].
  destruct (@find_granule_by_point_misses_boundary seam_catalog (85#1) (57#2)
              west_tile eq_refl (or_introl eq_refl) eq_refl)
    as (Hcov & Hcon & urls & E & _ & _ & Hn & _).
  split; [exact Hcov|]. split; [exact Hcon|].
  exists urls. split; [exact E|]. apply Hn.
  repeat constructor; cbn; intuition discriminate.
Defined.

(** C10: the point lookup hands back the values found under [zarr_url]
    as they are published, the zone lookup hands back their translations;
    [read_in_s3] translates what it is given before it opens it.  On the
    catalog of the scenario the one gives the [http] locator and the other
    the [s3] locator. *)
Theorem lookups_return_different_forms (lexists : string -> bool)
    (open_dataset : string -> result Dataset)
    (C : list Feature) (lon lat : Q) (epsg_code : string) :
  well_formed C = true ->
  (exists urls,
     find_granule_by_point (Doc.catalog_json C) [lon; lat] = Ok urls /\
     forall u, In u urls -> exists f, In f C /\ u = JStr (locator f)) /\
  (exists urls,
     find_granules_by_zone lexists (Doc.catalog_json C) epsg_code = Ok urls /\
     forall u, In u urls -> exists f, In f C /\ u = s3_url_of (locator f)) /\
  (forall u, read_in_s3 open_dataset u = open_dataset (s3_url_of u)) /\
  find_granule_by_point (Doc.catalog_json scenario_catalog) [169#2; 57#2]
    = Ok [JStr "http://example.com/a.zarr"] /\
  find_granules_by_zone (fun _ => true) (Doc.catalog_json scenario_catalog)
    "EPSG:32645" = Ok ["s3://example.com/a.zarr"].
Proof.
  intros HW. split; [|split; [|split; [reflexivity | split; reflexivity]]].
  - eexists. split; [now apply point_lookup_value|].
    intros u Hin. apply in_map_iff in Hin as (f & E & Hf).
    apply filter_In in Hf as [Hf _]. now exists f.
  - eexists. split; [apply zone_lookup_value|].
    intros u Hin. apply filter_In in Hin as [Hin _].
    apply in_map_iff in Hin as (f & E & Hf).
    apply filter_In in Hf as [Hf _]. now exists f.
Qed.

Lemma lookups_return_different_forms_witness :
  find_granule_by_point (Doc.catalog_json sample_catalog) [169#2; 113#4]
    = Ok [JStr "http://its-live-data.s3.amazonaws.com/datacubes/v02/a.zarr";
          JStr "http://elsewhere.s3.amazonaws.com/datacubes/v02/b.zarr"] /\
  find_granules_by_zone (fun _ => true) (Doc.catalog_json sample_catalog) "EPSG:32645"
    = Ok ["s3://its-live-data/datacubes/v02/a.zarr";
          "s3://elsewhere/datacubes/v02/b.zarr"].
Proof.
  destruct (@lookups_return_different_forms (fun _ => true) (fun _ => Raise ValueError)
              sample_catalog (169#2) (113#4) "EPSG:32645" eq_refl)
    as ((u1 & E1 & _) & (u2 & E2 & _) & _).
  split.
  - rewrite E1. rewrite point_lookup_value in E1 by reflexivity.
    inversion E1. reflexivity.
  - rewrite E2. rewrite zone_lookup_value in E2.
    inversion E2. reflexivity.
Defined.

(* ===================================================================== *)
(** * The lookups on a document with missing fields *)
(* ===================================================================== *)

Lemma point_reads_missing_ring (p : coord) (C : list RawFeature) :
  (exists f, In f C /\ raw_ring f = None) ->
  forallb (point_reads_ok p) C = false.
Proof.
  intros (f & Hf & Hr). induction C as [|g C IH]; [contradiction|].
  simpl. destruct Hf as [->|Hf].
  - unfold point_reads_ok. now rewrite Hr.
  - rewrite (IH Hf). apply andb_false_r.
Qed.

Lemma zone_reads_missing_zone (z : string) (C : list RawFeature) :
  (exists f, In f C /\ raw_zone f = None) ->
  forallb (zone_reads_ok z) C = false.
Proof.
  intros (f & Hf & Hr). induction C as [|g C IH]; [contradiction|].
  simpl. destruct Hf as [->|Hf].
  - unfold zone_reads_ok. now rewrite Hr.
  - rewrite (IH Hf). apply andb_false_r.
Qed.

(** C7, as the claim has it, fails: a feature without geometry does not
    stop the zone lookup, a feature without zone identifier does not stop
    the point lookup, and a feature without locator is passed over by
    either lookup when it is not selected, the result then being empty. *)
Lemma missing_field_not_reported :
  find_granules_by_zone (fun _ => true)
    (Doc.raw_catalog_json no_geometry_catalog) "EPSG:32645"
    = Ok ["s3://its-live-data/datacubes/v02/a.zarr"] /\
  find_granule_by_point (Doc.raw_catalog_json no_zone_catalog) [169#2; 57#2]
    = Ok [JStr "http://its-live-data.s3.amazonaws.com/datacubes/v02/a.zarr"] /\
  find_granule_by_point (Doc.raw_catalog_json no_url_catalog) [0; 0] = Ok [] /\
  find_granules_by_zone (fun _ => true)
    (Doc.raw_catalog_json no_url_catalog) "EPSG:32646" = Ok [].
Proof. repeat split; reflexivity. Qed.

(** C7, amended: a lookup fails, with the error of a missing key, exactly
    when a field it reads is missing.  The point lookup reads the ring of
    every feature and the locator of the features whose ring contains the
    point; the zone lookup reads the zone identifier of every feature and
    the locator of the features of the zone asked for.  When all the
    fields it reads are present a lookup returns its result, whatever
    other fields are missing. *)
Theorem lookups_on_incomplete_catalog (lexists : string -> bool)
    (C : list RawFeature) (lon lat : Q) (epsg_code : string) :
  rings_accepted C = true ->
  (if forallb (point_reads_ok (lon, lat)) C
   then find_granule_by_point (Doc.raw_catalog_json C) [lon; lat]
        = Ok (raw_point_urls (lon, lat) C)
   else exists k,
        find_granule_by_point (Doc.raw_catalog_json C) [lon; lat]
        = Raise (KeyError (KStr k)) /\ (k = "geometry" \/ k = "zarr_url")) /\
  (if forallb (zone_reads_ok epsg_code) C
   then find_granules_by_zone lexists (Doc.raw_catalog_json C) epsg_code
        = Ok (filter lexists (raw_zone_urls epsg_code C))
   else exists k,
        find_granules_by_zone lexists (Doc.raw_catalog_json C) epsg_code
        = Raise (KeyError (KStr k)) /\ (k = "data_epsg" \/ k = "zarr_url")) /\
  ((exists f, In f C /\ raw_ring f = None) ->
   is_ok (find_granule_by_point (Doc.raw_catalog_json C) [lon; lat]) = false) /\
  ((exists f, In f C /\ raw_zone f = None) ->
   is_ok (find_granules_by_zone lexists (Doc.raw_catalog_json C) epsg_code) = false).
Proof.
  intros HA.
  assert (HP : if forallb (point_reads_ok (lon, lat)) C
               then find_granule_by_point (Doc.raw_catalog_json C) [lon; lat]
                    = Ok (raw_point_urls (lon, lat) C)
               else exists k,
                    find_granule_by_point (Doc.raw_catalog_json C) [lon; lat]
                    = Raise (KeyError (KStr k))
                    /\ (k = "geometry" \/ k = "zarr_url")).
  { rewrite find_granule_by_point_raw.
    destruct (forallb (point_reads_ok (lon, lat)) C) eqn:E.
    - now rewrite run_point_ok.
    - now apply run_point_fail. }
  assert (HZ : if forallb (zone_reads_ok epsg_code) C
               then find_granules_by_zone lexists (Doc.raw_catalog_json C) epsg_code
                    = Ok (filter lexists (raw_zone_urls epsg_code C))
               else exists k,
                    find_granules_by_zone lexists (Doc.raw_catalog_json C) epsg_code
                    = Raise (KeyError (KStr k))
                    /\ (k = "data_epsg" \/ k = "zarr_url")).
  { rewrite find_granules_by_zone_raw.
    destruct (forallb (zone_reads_ok epsg_code) C) eqn:E.
    - now rewrite run_zone_ok.
    - now apply run_zone_fail. }
  split; [exact HP|]. split; [exact HZ|]. split.
  - intros Hm. rewrite (point_reads_missing_ring (lon, lat) _ Hm) in HP.
    destruct HP as (k & -> & _). reflexivity.
  - intros Hm. rewrite (zone_reads_missing_zone epsg_code _ Hm) in HZ.
    destruct HZ as (k & -> & _). reflexivity.
Qed.

Lemma lookups_on_incomplete_catalog_witness :
  (exists k, find_granule_by_point (Doc.raw_catalog_json no_url_catalog)
               [169#2; 57#2] = Raise (KeyError (KStr k))) /\
  find_granules_by_zone (fun _ => true)
    (Doc.raw_catalog_json no_geometry_catalog) "EPSG:32645"
  = Ok ["s3://its-live-data/datacubes/v02/a.zarr"].
Proof.
  split.
  - destruct (@lookups_on_incomplete_catalog (fun _ => true) no_url_catalog
                (169#2) (57#2) "EPSG:32645" eq_refl) as ((k & E & _) & _).
    exists k. exact E.
  - destruct (@lookups_on_incomplete_catalog (fun _ => true) no_geometry_catalog
                0 0 "EPSG:32645" eq_refl) as (_ & E & _).
    exact E.
Defined.

(* ===================================================================== *)
(** * The footprint of a data cube: the claims *)
(* ===================================================================== *)



(** The rectangle is a closed ring already: [Polygon] keeps its five
    vertices. *)
Lemma polygon_rectangle (xmin ymin xmax ymax : Q) :
  Geom.Polygon (rectangle xmin ymin xmax ymax)
  = Ok (Some (rectangle xmin ymin xmax ymax)).
Proof.
  unfold Geom.Polygon, rectangle.
  cbn [List.length Nat.ltb Nat.leb Nat.eqb last].
  unfold Geom.coord_eqb. cbn [fst snd]. now rewrite !Qeq_bool_refl.
Qed.

Lemma axes_coords (input_xr : Dataset) (xs ys : list Q) :
  axes input_xr = Some (xs, ys) ->
  Xr.coords_data input_xr "x" = Ok xs /\ Xr.coords_data input_xr "y" = Ok ys /\
  (exists x xt, xs = x :: xt) /\ (exists y yt, ys = y :: yt).
Proof.
  unfold axes, Xr.coords_data.
  destruct (Xr.assoc (coords input_xr) "x") as [[|x xt]|]; try discriminate.
  destruct (Xr.assoc (coords input_xr) "y") as [[|y yt]|]; try discriminate.
  intros H; inversion H; subst. eauto 8.
Qed.

Section BoundingBoxFacts.

Variable crs_known : string -> bool.
Variable transform : string -> string -> coord -> coord.


(** What the function draws when every step goes through. *)
Lemma get_bbox_single_run (input_xr : Dataset) (x y : Q) (xt yt : list Q)
    (epsg : attr) :
  axes input_xr = Some (x :: xt, y :: yt) ->
  Xr.mapping_spatial_epsg input_xr = Ok epsg ->
  get_bbox_single crs_known transform input_xr =
  let pts_ls := rectangle (fold_left Qmin xt x) (fold_left Qmin yt y)
                          (fold_left Qmax xt x) (fold_left Qmax yt y) in
  polygon0 <- new_frame crs_known ("epsg:" ++ format_attr epsg) (Some pts_ls) ;;
  polygon <- to_crs crs_known transform polygon0 "epsg:4326" ;;
  Ok (PyNone,
      [StockImg; AddFeature "COASTLINE"; AddFeature "LAND";
       AddFeature "admin_1_states_provinces_lines";
       SetExtent
         (option_map (fun b => match b with
                               | (b0, b1, b2, b3) =>
                                   [b0 - (15#1); b2 + (15#1);
                                    b1 - (15#1); b3 + (15#1)]%Q
                               end) (total_bounds polygon));
       PlotFrame polygon "red"]).
Proof.
  intros HA HE. apply axes_coords in HA as (Hx & Hy & _ & _).
  unfold get_bbox_single. rewrite Hx, Hy, HE.
  cbn [bind Xr.array_min Xr.array_max].
  fold (rectangle (fold_left Qmin xt x) (fold_left Qmin yt y)
                  (fold_left Qmax xt x) (fold_left Qmax yt y)).
  rewrite polygon_rectangle. reflexivity.
Qed.

End BoundingBoxFacts.




Lemma mapping_spatial_epsg_error (input_xr : Dataset) (e : exn) :
  Xr.mapping_spatial_epsg input_xr = Raise e -> projection_error e = true.
Proof.
  unfold Xr.mapping_spatial_epsg.
  destruct (mapping input_xr) as [attrs|]; [|now intros [= <-]].
  destruct (Xr.assoc attrs "spatial_epsg"); [discriminate | now intros [= <-]].
Qed.

(** C6: a data set without a projection attribute that the database
    resolves makes the function fail: no value is handed back, and when
    the two axes are there and not empty, the exception is the one of the
    projection: the attribute is missing, or it is not resolved. *)
Theorem get_bbox_single_missing_projection (crs_known : string -> bool)
    (transform : string -> string -> coord -> coord) (input_xr : Dataset) :
  projection_usable crs_known input_xr = false ->
  is_ok (get_bbox_single crs_known transform input_xr) = false /\
  (forall xs ys, axes input_xr = Some (xs, ys) ->
     exists e, get_bbox_single crs_known transform input_xr = Raise e
               /\ projection_error e = true).
Proof.
  intros HP. unfold projection_usable in HP. split.
  - unfold get_bbox_single.
    repeat match goal with
           | |- is_ok (bind (Xr.coords_data ?d ?n) _) = _ =>
               destruct (Xr.coords_data d n); cbn [bind]; [|reflexivity]
           | |- is_ok (bind (Xr.array_min ?a) _) = _ =>
               destruct (Xr.array_min a); cbn [bind]; [|reflexivity]
           | |- is_ok (bind (Xr.array_max ?a) _) = _ =>
               destruct (Xr.array_max a); cbn [bind]; [|reflexivity]
           end.
    destruct (Xr.mapping_spatial_epsg input_xr) as [epsg|e]; cbn [bind]; [|reflexivity].
    destruct (Geom.Polygon _); cbn [bind]; [|reflexivity].
    unfold new_frame. now rewrite HP.
  - intros xs ys HA.
    destruct (axes_coords _ HA) as (Hx & Hy & (x & xt & ->) & (y & yt & ->)).
    destruct (Xr.mapping_spatial_epsg input_xr) as [epsg|e] eqn:HE.
    + exists CRSError. split; [|reflexivity].
      rewrite (get_bbox_single_run crs_known transform _ HA HE).
      cbv zeta. unfold new_frame. now rewrite HP.
    + exists e. split; [|now apply mapping_spatial_epsg_error with input_xr].
      unfold get_bbox_single. rewrite Hx, Hy.
      cbn [bind Xr.array_min Xr.array_max]. now rewrite HE.
Qed.

Lemma get_bbox_single_missing_projection_witness :
  is_ok (get_bbox_single sample_crs_known sample_transform sample_cube_unprojected)
  = false /\
  (forall xs ys, axes sample_cube_unprojected = Some (xs, ys) ->
     exists e, get_bbox_single sample_crs_known sample_transform
                 sample_cube_unprojected = Raise e
               /\ projection_error e = true).
Proof.
  apply (@get_bbox_single_missing_projection sample_crs_known sample_transform
           sample_cube_unprojected).
  reflexivity.
Defined.

(* ===================================================================== *)
(** * The footprints of a list of data cubes: facts *)
(* ===================================================================== *)

Section BoundingBoxGroupFacts.

Variable crs_known : string -> bool.
Variable transform : string -> string -> coord -> coord.

(** [get_bbox_single] draws the frame of the data set, when there is one,
    and fails as the construction of the frame fails. *)
Lemma get_bbox_single_frame (input_xr : Dataset) :
  get_bbox_single crs_known transform input_xr =
  g <- footprint_frame crs_known transform input_xr ;;
  Ok (PyNone,
      [StockImg; AddFeature "COASTLINE"; AddFeature "LAND";
       AddFeature "admin_1_states_provinces_lines";
       SetExtent
         (option_map (fun b => match b with
                               | (b0, b1, b2, b3) =>
                                   [b0 - (15#1); b2 + (15#1);
                                    b1 - (15#1); b3 + (15#1)]%Q
                               end) (total_bounds g));
       PlotFrame g "red"]).
Proof.
  unfold get_bbox_single, footprint_frame, rectangle.
  destruct (Xr.coords_data input_xr "x") as [x|e]; cbn [bind]; [|reflexivity].
  destruct (Xr.array_min x) as [xmin|e]; cbn [bind]; [|reflexivity].
  destruct (Xr.array_max x) as [xmax|e]; cbn [bind]; [|reflexivity].
  destruct (Xr.coords_data input_xr "y") as [y|e]; cbn [bind]; [|reflexivity].
  destruct (Xr.array_min y) as [ymin|e]; cbn [bind]; [|reflexivity].
  destruct (Xr.array_max y) as [ymax|e]; cbn [bind]; [|reflexivity].
  destruct (Xr.mapping_spatial_epsg input_xr) as [epsg|e]; cbn [bind]; [|reflexivity].
  destruct (Geom.Polygon _) as [poly|e]; cbn [bind]; [|reflexivity].
  destruct (new_frame _ _ _) as [g0|e]; cbn [bind]; [|reflexivity].
  destruct (to_crs _ _ _ _) as [g|e]; reflexivity.
Qed.

Lemma get_bbox_single_ok_frame (input_xr : Dataset) :
  is_ok (get_bbox_single crs_known transform input_xr)
  = is_ok (footprint_frame crs_known transform input_xr).
Proof.
  rewrite get_bbox_single_frame.
  now destruct (footprint_frame crs_known transform input_xr).
Qed.

Lemma group_body_frame (input_ls : list Dataset) (i : nat) (d : Dataset)
    (poly_ls : list GeoDataFrame) :
  nth_error input_ls i = Some d ->
  group_body crs_known transform input_ls i poly_ls =
  g <- footprint_frame crs_known transform d ;; Ok (poly_ls ++ [g])%list.
Proof.
  intros H. unfold group_body, footprint_frame, cube_getitem, rectangle.
  rewrite H. cbn [bind].
  destruct (Xr.coords_data d "x") as [x|e]; cbn [bind]; [|reflexivity].
  destruct (Xr.array_min x) as [xmin|e]; cbn [bind]; [|reflexivity].
  destruct (Xr.array_max x) as [xmax|e]; cbn [bind]; [|reflexivity].
  destruct (Xr.coords_data d "y") as [y|e]; cbn [bind]; [|reflexivity].
  destruct (Xr.array_min y) as [ymin|e]; cbn [bind]; [|reflexivity].
  destruct (Xr.array_max y) as [ymax|e]; cbn [bind]; [|reflexivity].
  destruct (Xr.mapping_spatial_epsg d) as [epsg|e]; cbn [bind]; [|reflexivity].
  destruct (Geom.Polygon _) as [poly|e]; cbn [bind]; [|reflexivity].
  destruct (new_frame _ _ _) as [g0|e]; cbn [bind]; [|reflexivity].
  destruct (to_crs _ _ _ _) as [g|e]; reflexivity.
Qed.

Lemma run_frames (input_ls : list Dataset) (poly_ls : list GeoDataFrame) :
  run_steps (fun d acc => g <- footprint_frame crs_known transform d ;;
                          Ok (acc ++ [g])%list) input_ls poly_ls
  = gs <- footprint_frames crs_known transform input_ls ;;
    Ok (poly_ls ++ gs)%list.
Proof.
  revert poly_ls; induction input_ls as [|d ds IH]; intros poly_ls.
  - simpl. now rewrite app_nil_r.
  - cbn [run_steps footprint_frames].
    destruct (footprint_frame crs_known transform d) as [g|e]; cbn [bind];
      [|reflexivity].
    rewrite IH.
    destruct (footprint_frames crs_known transform ds) as [gs|e]; cbn [bind];
      [|reflexivity].
    now rewrite <- app_assoc.
Qed.

Lemma plot_loop (poly_ls : list GeoDataFrame) (drawn : list map_event) :
  for_range (plot_body poly_ls) 0 (List.length poly_ls) drawn
  = Ok (drawn ++ List.map (fun g => Drawn (PlotFrame g "red")) poly_ls)%list.
Proof.
  rewrite (for_range_list
             (fun g acc => Ok (acc ++ [Drawn (PlotFrame g "red")])%list)).
  - revert drawn. induction poly_ls as [|g gs IH]; intros drawn.
    + simpl. now rewrite app_nil_r.
    + cbn [run_steps bind List.map]. rewrite IH. now rewrite <- app_assoc.
  - intros i g st H. unfold plot_body. now rewrite H.
Qed.

(** The whole call, by the frames of the list and the four bounds. *)
Lemma get_bbox_group_run (input_ls : list Dataset) (bounds : list Q) :
  get_bbox_group crs_known transform input_ls bounds =
  gs <- footprint_frames crs_known transform input_ls ;;
  match bounds with
  | b0 :: b1 :: b2 :: b3 :: _ =>
      Ok (PyNone,
          (base_map b0 b1 b2 b3
           ++ List.map (fun g => Drawn (PlotFrame g "red")) gs)%list)
  | _ => Raise IndexError
  end.
Proof.
  unfold get_bbox_group.
  rewrite (for_range_list
             (fun d acc => g <- footprint_frame crs_known transform d ;;
                           Ok (acc ++ [g])%list))
    by (intros; now apply group_body_frame).
  rewrite run_frames.
  destruct (footprint_frames crs_known transform input_ls) as [gs|e];
    cbn [bind app]; [|reflexivity].
  destruct bounds as [|b0 [|b1 [|b2 [|b3 rest]]]]; try reflexivity.
  cbn [point_getitem nth_error bind]. now rewrite plot_loop.
Qed.

Lemma footprint_frames_ok (input_ls : list Dataset) :
  Forall (fun d => is_ok (get_bbox_single crs_known transform d) = true) input_ls ->
  exists gs,
    footprint_frames crs_known transform input_ls = Ok gs /\
    Forall2 (fun d g => footprint_frame crs_known transform d = Ok g) input_ls gs.
Proof.
  induction 1 as [|d ds Hd _ IH].
  - exists []. split; [reflexivity | constructor].
  - rewrite get_bbox_single_ok_frame in Hd.
    destruct (footprint_frame crs_known transform d) as [g|e] eqn:E;
      [|discriminate].
    destruct IH as (gs & Egs & F). exists (g :: gs). split.
    + cbn [footprint_frames]. now rewrite E, Egs.
    + now constructor.
Qed.

Lemma footprint_frames_first_failure (pre post : list Dataset) (d : Dataset)
    (e : exn) :
  Forall (fun d => is_ok (get_bbox_single crs_known transform d) = true) pre ->
  get_bbox_single crs_known transform d = Raise e ->
  footprint_frames crs_known transform (pre ++ d :: post) = Raise e.
Proof.
  intros Hpre Hd. induction Hpre as [|d0 ds H0 _ IH].
  - cbn [app footprint_frames]. rewrite get_bbox_single_frame in Hd.
    destruct (footprint_frame crs_known transform d); [discriminate|].
    cbn [bind] in *. now inversion Hd.
  - cbn [app footprint_frames]. rewrite get_bbox_single_ok_frame in H0.
    destruct (footprint_frame crs_known transform d0); [|discriminate].
    cbn [bind]. now rewrite IH.
Qed.

End BoundingBoxGroupFacts.

(** X1: when [get_bbox_single] goes through on every data set of the list
    and [bounds] has four entries or more, [get_bbox_group] hands back
    [None] and puts on the map, after the base map with the extent set to
    the first four bounds, one frame for each data set, in list order:
    the frame that [get_bbox_single] plots for that data set. *)
Theorem get_bbox_group_plots_each (crs_known : string -> bool)
    (transform : string -> string -> coord -> coord)
    (input_ls : list Dataset) (b0 b1 b2 b3 : Q) (rest : list Q) :
  Forall (fun d => is_ok (get_bbox_single crs_known transform d) = true) input_ls ->
  exists gs,
    get_bbox_group crs_known transform input_ls (b0 :: b1 :: b2 :: b3 :: rest)
    = Ok (PyNone,
          (base_map b0 b1 b2 b3
           ++ List.map (fun g => Drawn (PlotFrame g "red")) gs)%list) /\
    Forall2 (fun d g =>
               exists extent,
                 get_bbox_single crs_known transform d
                 = Ok (PyNone,
                       [StockImg; AddFeature "COASTLINE"; AddFeature "LAND";
                        AddFeature "admin_1_states_provinces_lines";
                        SetExtent extent; PlotFrame g "red"]))
            input_ls gs.
Proof.
  intros H. destruct (footprint_frames_ok crs_known transform H) as (gs & E & F).
  exists gs. split.
  - now rewrite get_bbox_group_run, E.
  - clear E H. induction F as [|d g ds gs Hd _ IH]; constructor; [|exact IH].
    eexists. rewrite get_bbox_single_frame, Hd. reflexivity.
Qed.

Lemma get_bbox_group_plots_each_witness :
  exists gs,
    get_bbox_group sample_crs_known sample_transform [sample_cube; sample_cube]
      ((70#1) :: (98#1) :: (20#1) :: (60#1) :: [])
    = Ok (PyNone,
          (base_map (70#1) (98#1) (20#1) (60#1)
           ++ List.map (fun g => Drawn (PlotFrame g "red")) gs)%list) /\
    Forall2 (fun d g =>
               exists extent,
                 get_bbox_single sample_crs_known sample_transform d
                 = Ok (PyNone,
                       [StockImg; AddFeature "COASTLINE"; AddFeature "LAND";
                        AddFeature "admin_1_states_provinces_lines";
                        SetExtent extent; PlotFrame g "red"]))
            [sample_cube; sample_cube] gs.
Proof.
  apply get_bbox_group_plots_each.
  repeat constructor.
Defined.

(** X2: [get_bbox_group] fails with the exception of the first data set
    on which [get_bbox_single] fails, whatever [bounds] is; and when no
    data set fails but [bounds] has fewer than four entries it fails with
    [IndexError], nothing having been drawn. *)
Theorem get_bbox_group_failure (crs_known : string -> bool)
    (transform : string -> string -> coord -> coord) :
  (forall (pre post : list Dataset) (d : Dataset) (e : exn) (bounds : list Q),
     Forall (fun d => is_ok (get_bbox_single crs_known transform d) = true) pre ->
     get_bbox_single crs_known transform d = Raise e ->
     get_bbox_group crs_known transform (pre ++ d :: post) bounds = Raise e) /\
  (forall (input_ls : list Dataset) (bounds : list Q),
     Forall (fun d => is_ok (get_bbox_single crs_known transform d) = true) input_ls ->
     (List.length bounds < 4)%nat ->
     get_bbox_group crs_known transform input_ls bounds = Raise IndexError).
Proof.
  split.
  - intros pre post d e bounds Hpre Hd.
    now rewrite get_bbox_group_run,
      (footprint_frames_first_failure crs_known transform post d Hpre Hd).
  - intros input_ls bounds H L.
    destruct (footprint_frames_ok crs_known transform H) as (gs & E & _).
    rewrite get_bbox_group_run, E. cbn [bind].
    destruct bounds as [|b0 [|b1 [|b2 [|b3 rest]]]]; try reflexivity.
    simpl in L. lia.
Qed.

Lemma get_bbox_group_failure_witness :
  get_bbox_group sample_crs_known sample_transform
    ([sample_cube] ++ sample_cube_unprojected :: [sample_cube]) []
  = Raise (AttributeError "mapping") /\
  get_bbox_group sample_crs_known sample_transform [sample_cube] [70#1; 98#1; 20#1]
  = Raise IndexError.
Proof.
  destruct (get_bbox_group_failure sample_crs_known sample_transform) as [H1 H2].
  split.
  - apply H1; [repeat constructor | reflexivity].
  - apply H2; [repeat constructor | simpl; lia].
Defined.

(* ===================================================================== *)
(** * The cells that chain the helpers: facts *)
(* ===================================================================== *)

Lemma s3_url_of_absent (u : string) :
  contains "http" u = false ->
  contains ".s3.amazonaws.com" u = false ->
  s3_url_of u = u.
Proof.
  intros Hh Hg. unfold s3_url_of.
  rewrite (@replace_absent "http" "s3") by (discriminate || exact Hh).
  now rewrite (@replace_absent ".s3.amazonaws.com" "") by (discriminate || exact Hg).
Qed.

(** X3: a locator that holds neither ['http'] nor the gateway suffix is
    left as it is by the translation; so [read_in_s3] opens a locator
    that is already in native form at that very locator. *)
Theorem s3_url_of_native (open_dataset : string -> result Dataset) (u : string) :
  contains "http" u = false ->
  contains ".s3.amazonaws.com" u = false ->
  s3_url_of u = u /\ read_in_s3 open_dataset u = open_dataset u.
Proof.
  intros Hh Hg.
  pose proof (s3_url_of_absent u Hh Hg) as E.
  split; [exact E|].
  change (read_in_s3 open_dataset u) with (open_dataset (s3_url_of u)).
  now rewrite E.
Qed.

Lemma s3_url_of_native_witness :
  s3_url_of "s3://its-live-data/datacubes/v02/N40E080/ITS_LIVE_vel_EPSG32645_G0120_X250000_Y4750000.zarr"
  = "s3://its-live-data/datacubes/v02/N40E080/ITS_LIVE_vel_EPSG32645_G0120_X250000_Y4750000.zarr"
  /\ read_in_s3 (fun _ => Ok sample_cube)
       "s3://its-live-data/datacubes/v02/N40E080/ITS_LIVE_vel_EPSG32645_G0120_X250000_Y4750000.zarr"
     = Ok sample_cube.
Proof.
  apply (@s3_url_of_native (fun _ => Ok sample_cube)); reflexivity.
Defined.

Lemma read_all_open_each (open_dataset : string -> result Dataset)
    (granule_ls : list string) :
  read_all open_dataset granule_ls
  = open_each open_dataset (List.map s3_url_of granule_ls).
Proof.
  induction granule_ls as [|x rest IH]; [reflexivity|].
  cbn [read_all open_each List.map].
  change (read_in_s3 open_dataset x) with (open_dataset (s3_url_of x)).
  now rewrite IH.
Qed.

(** X4: on a catalog of the data model, looking a point up and opening
    the first result fails with [IndexError] when no footprint contains
    the point, and otherwise opens the translated locator of the first
    feature, in catalog order, whose footprint contains the point. *)
Theorem open_granule_at_first (open_dataset : string -> result Dataset)
    (C : list Feature) (lon lat : Q) :
  well_formed C = true ->
  open_granule_at open_dataset (Doc.catalog_json C) [lon; lat] =
  match containing C (lon, lat) with
  | [] => Raise IndexError
  | f :: _ => open_dataset (s3_url_of (locator f))
  end.
Proof.
  intros H. unfold open_granule_at.
  rewrite (point_lookup_value _ _ _ H). cbn [bind].
  now destruct (containing C (lon, lat)).
Qed.

Lemma open_granule_at_first_witness :
  open_granule_at (fun u => if String.eqb u "s3://its-live-data/datacubes/v02/a.zarr"
                            then Ok sample_cube else Raise ValueError)
    (Doc.catalog_json sample_catalog) [169#2; 113#4]
  = Ok sample_cube.
Proof.
  rewrite (@open_granule_at_first _ sample_catalog (169#2) (113#4) eq_refl).
  reflexivity.
Defined.

(** X5: on a catalog of the data model, the cells that look a zone up
    and open its granules fail with [IndexError] when no locator of the
    zone passed the probe: the lookup cell ends by reading the first one.
    Otherwise they open, in catalog order and up to the first failure,
    the locators that passed the probe, each translated once more by
    [read_in_s3]; when a probed locator holds neither ['http'] nor the
    gateway suffix, these are the probed locators themselves. *)
Theorem open_granules_of_zone_opens (open_dataset : string -> result Dataset)
    (lexists : string -> bool) (C : list Feature) (epsg_code : string) :
  let probed :=
    filter lexists
      (List.map (fun f => s3_url_of (locator f)) (of_zone C epsg_code)) in
  open_granules_of_zone open_dataset lexists (Doc.catalog_json C) epsg_code
  = match probed with
    | [] => Raise IndexError
    | _ :: _ => open_each open_dataset (List.map s3_url_of probed)
    end /\
  ((forall u, In u probed ->
      contains "http" u = false /\ contains ".s3.amazonaws.com" u = false) ->
   open_granules_of_zone open_dataset lexists (Doc.catalog_json C) epsg_code
   = match probed with
     | [] => Raise IndexError
     | _ :: _ => open_each open_dataset probed
     end).
Proof.
  intros probed.
  assert (E : open_granules_of_zone open_dataset lexists (Doc.catalog_json C) epsg_code
              = match probed with
                | [] => Raise IndexError
                | _ :: _ => open_each open_dataset (List.map s3_url_of probed)
                end).
  { unfold open_granules_of_zone. rewrite zone_lookup_value. cbn [bind].
    fold probed. destruct probed as [|u rest]; [reflexivity|].
    cbn [first_granule bind]. apply read_all_open_each. }
  split; [exact E|].
  intros Hn. rewrite E.
  assert (M : List.map s3_url_of probed = probed).
  { clearbody probed. clear E.
    induction probed as [|u rest IH]; [reflexivity|].
    cbn [List.map]. destruct (Hn u (or_introl eq_refl)) as [Hh Hg].
    rewrite (s3_url_of_absent u Hh Hg).
    f_equal. apply IH. intros v Hv. apply Hn. now right. }
  now rewrite M.
Qed.

Lemma open_granules_of_zone_opens_witness :
  open_granules_of_zone (fun _ => Ok sample_cube) sample_lexists
    (Doc.catalog_json sample_catalog) "EPSG:32645"
  = match filter sample_lexists
            (List.map (fun f => s3_url_of (locator f))
                      (of_zone sample_catalog "EPSG:32645")) with
    | [] => Raise IndexError
    | _ :: _ =>
        open_each (fun _ => Ok sample_cube)
          (filter sample_lexists
             (List.map (fun f => s3_url_of (locator f))
                       (of_zone sample_catalog "EPSG:32645")))
    end.
Proof.
  refine (proj2 (@open_granules_of_zone_opens (fun _ => Ok sample_cube)
                   sample_lexists sample_catalog "EPSG:32645") _).
  intros u Hu. vm_compute in Hu. destruct Hu as [<-|[]].
  split; reflexivity.
Defined.

(* ===================================================================== *)
(** * The lookups on any document *)
(* ===================================================================== *)

(** Case analysis on the first step of a computation in a hypothesis. *)
Ltac bind_inv H :=
  repeat match type of H with
         | bind ?m _ = Ok _ =>
             let E := fresh "E" in
             destruct m eqn:E; cbn [bind] in H; [|discriminate H]
         end.

Lemma for_range_length {A : Type} (body : nat -> list A -> result (list A)) :
  (forall i st st', body i st = Ok st' ->
     (List.length st' <= S (List.length st))%nat) ->
  forall n i0 st st', for_range body i0 n st = Ok st' ->
    (List.length st' <= List.length st + n)%nat.
Proof.
  intros Hb. induction n as [|n IH]; intros i0 st st' H.
  - inversion H. lia.
  - cbn [for_range] in H. destruct (body i0 st) as [st1|e] eqn:E;
      cbn [bind] in H; [|discriminate].
    apply Hb in E. apply IH in H. lia.
Qed.

Lemma point_body_length (input_dict : json) (p : coord) (i : nat)
    (st st' : list json) :
  point_body input_dict p i st = Ok st' ->
  (List.length st' <= S (List.length st))%nat.
Proof.
  unfold point_body. intros H. bind_inv H.
  destruct (Geom.contains _ _).
  - bind_inv H. inversion H. rewrite length_app. simpl. lia.
  - inversion H. lia.
Qed.

Lemma zone_body_length (lexists : string -> bool) (input_dict : json)
    (z : string) (i : nat) (st st' : list string) :
  zone_body lexists input_dict z i st = Ok st' ->
  (List.length st' <= S (List.length st))%nat.
Proof.
  unfold zone_body. intros H. bind_inv H.
  destruct (Py.eq_str _ _).
  - bind_inv H. destruct (lexists _); inversion H;
      [rewrite length_app; simpl|]; lia.
  - inversion H. lia.
Qed.

Lemma point_loop_length (input_dict features : json) (n : nat)
    (input_point : list Q) (urls : list json) :
  Py.getitem input_dict (KStr "features") = Ok features ->
  Py.len features = Ok n ->
  find_granule_by_point input_dict input_point = Ok urls ->
  (List.length urls <= n)%nat.
Proof.
  intros Hf Hn H. unfold find_granule_by_point in H.
  destruct (point_getitem input_point 0); cbn [bind] in H; [|discriminate].
  destruct (point_getitem input_point 1); cbn [bind] in H; [|discriminate].
  rewrite Hf in H. cbn [bind] in H. rewrite Hn in H. cbn [bind] in H.
  apply for_range_length in H; [exact H|].
  intros i st st'. apply point_body_length.
Qed.

(** X6: no feature contributes more than one locator.  Whatever the
    document, a zone lookup that returns has read a ['features'] entry
    with a length, and returns at most that many locators; and on the
    document of a catalog, whichever fields its features lack and
    whatever their rings are, a point lookup that returns gives at most
    as many locators as the catalog has features. *)
Theorem lookups_at_most_one_per_feature (lexists : string -> bool)
    (input_dict : json) (epsg_code : string)
    (C : list RawFeature) (input_point : list Q) :
  (forall urls,
     find_granules_by_zone lexists input_dict epsg_code = Ok urls ->
     exists features n,
       Py.getitem input_dict (KStr "features") = Ok features /\
       Py.len features = Ok n /\ (List.length urls <= n)%nat) /\
  (forall urls,
     find_granule_by_point (Doc.raw_catalog_json C) input_point = Ok urls ->
     (List.length urls <= List.length C)%nat).
Proof.
  split; intros urls H.
  - unfold find_granules_by_zone in H. bind_inv H.
    exists a, a0. repeat split; try assumption.
    apply for_range_length in H; [exact H|].
    intros i st st'. apply zone_body_length.
  - apply (point_loop_length (Doc.raw_catalog_json C)
             (features := JArr (List.map Doc.feature_json C)) input_point);
      [apply features_of_catalog | | exact H].
    cbn [Py.len]. now rewrite length_map.
Qed.

Lemma zone_body_probe (lexists : string -> bool) (input_dict : json)
    (z : string) (i : nat) (st : list string) :
  zone_body lexists input_dict z i (filter lexists st)
  = result_map (filter lexists) (zone_body (fun _ => true) input_dict z i st).
Proof.
  unfold zone_body.
  destruct (Py.getitem input_dict (KStr "features")) as [fs|e]; cbn [bind];
    [|reflexivity].
  destruct (Py.getitem fs (KInt i)) as [f|e]; cbn [bind]; [|reflexivity].
  destruct (Py.getitem f (KStr "properties")) as [props|e]; cbn [bind];
    [|reflexivity].
  destruct (Py.getitem props (KStr "data_epsg")) as [v|e]; cbn [bind];
    [|reflexivity].
  destruct (Py.eq_str v z); [|reflexivity].
  destruct (Py.getitem props (KStr "zarr_url")) as [u|e]; cbn [bind];
    [|reflexivity].
  destruct (Py.replace_method u "http" "s3") as [s|e]; cbn [bind result_map];
    [|reflexivity].
  rewrite filter_app. cbn [filter].
  destruct (lexists _); [reflexivity | now rewrite app_nil_r].
Qed.

Lemma zone_loop_probe (lexists : string -> bool) (input_dict : json)
    (z : string) (n i0 : nat) (st : list string) :
  for_range (zone_body lexists input_dict z) i0 n (filter lexists st)
  = result_map (filter lexists)
      (for_range (zone_body (fun _ => true) input_dict z) i0 n st).
Proof.
  revert i0 st; induction n as [|n IH]; intros i0 st; [reflexivity|].
  cbn [for_range]. rewrite zone_body_probe.
  destruct (zone_body (fun _ => true) input_dict z i0 st) as [st1|e];
    cbn [bind result_map]; [apply IH | reflexivity].
Qed.

(** X7: whatever the document, the existence probe only removes entries:
    the zone lookup with a probe returns what the lookup returns when
    every locator exists, filtered by the probe, and it fails with the
    same exception when that lookup fails. *)
Theorem find_granules_by_zone_probe_filters (lexists : string -> bool)
    (input_dict : json) (epsg_code : string) :
  find_granules_by_zone lexists input_dict epsg_code
  = result_map (filter lexists)
      (find_granules_by_zone (fun _ => true) input_dict epsg_code).
Proof.
  unfold find_granules_by_zone.
  destruct (Py.getitem input_dict (KStr "features")) as [fs|e]; cbn [bind];
    [|reflexivity].
  destruct (Py.len fs) as [n|e]; cbn [bind]; [|reflexivity].
  exact (zone_loop_probe lexists input_dict epsg_code n 0 []).
Qed.

Lemma run_steps_skip {A St : Type} (l : list A) (st : St) :
  run_steps (fun _ acc => Ok acc) l st = Ok st.
Proof. induction l as [|a l IH]; [reflexivity | exact IH]. Qed.

(** X8: when the zone recorded for every feature is something else than
    the string asked for (another zone, or a code written as a number),
    the zone lookup returns the empty list, and it does so without
    reading any locator or geometry: the features need not have them. *)
Theorem find_granules_by_zone_no_match (lexists : string -> bool)
    (m : list (string * json)) (features : list json) (epsg_code : string) :
  Py.dict_get m "features" = Some (JArr features) ->
  (forall f, In f features ->
     exists properties data_epsg,
       Py.getitem f (KStr "properties") = Ok properties /\
       Py.getitem properties (KStr "data_epsg") = Ok data_epsg /\
       Py.eq_str data_epsg epsg_code = false) ->
  find_granules_by_zone lexists (JObj m) epsg_code = Ok [].
Proof.
  intros Hf Hall. unfold find_granules_by_zone.
  assert (G : Py.getitem (JObj m) (KStr "features") = Ok (JArr features))
    by (simpl; now rewrite Hf).
  rewrite G. cbn [bind Py.len].
  rewrite (for_range_list (fun _ acc => Ok acc)); [apply run_steps_skip|].
  intros i f st Hi. unfold zone_body. rewrite G. cbn [bind Py.getitem].
  rewrite Hi. cbn [bind].
  destruct (Hall f (nth_error_In _ _ Hi)) as (props & v & -> & Hv & Hne).
  cbn [bind]. rewrite Hv. cbn [bind]. now rewrite Hne.
Qed.

Lemma find_granules_by_zone_no_match_witness :
  find_granules_by_zone (fun _ => true)
    (JObj [("features",
            JArr [JObj [("properties", JObj [("data_epsg", JNum (32645#1))])]])])
    "EPSG:32645" = Ok [].
Proof.
  apply find_granules_by_zone_no_match
    with (features := [JObj [("properties", JObj [("data_epsg", JNum (32645#1))])]]).
  - reflexivity.
  - intros f [<-|[]]. eexists. eexists. repeat split; reflexivity.
Defined.

(* ===================================================================== *)
(** * The lookups on a catalog: further facts *)
(* ===================================================================== *)

Lemma well_formed_app (C1 C2 : list Feature) :
  well_formed (C1 ++ C2) = well_formed C1 && well_formed C2.
Proof. unfold well_formed. apply forallb_app. Qed.

(** X9: the lookups go through a catalog feature by feature: on two
    catalogs put one after the other, each lookup returns its result on
    the first followed by its result on the second. *)
Theorem lookups_on_appended_catalogs (lexists : string -> bool)
    (C1 C2 : list Feature) (lon lat : Q) (epsg_code : string) :
  well_formed C1 = true ->
  well_formed C2 = true ->
  (exists r1 r2,
     find_granule_by_point (Doc.catalog_json C1) [lon; lat] = Ok r1 /\
     find_granule_by_point (Doc.catalog_json C2) [lon; lat] = Ok r2 /\
     find_granule_by_point (Doc.catalog_json (C1 ++ C2)) [lon; lat]
     = Ok (r1 ++ r2)%list) /\
  (exists r1 r2,
     find_granules_by_zone lexists (Doc.catalog_json C1) epsg_code = Ok r1 /\
     find_granules_by_zone lexists (Doc.catalog_json C2) epsg_code = Ok r2 /\
     find_granules_by_zone lexists (Doc.catalog_json (C1 ++ C2)) epsg_code
     = Ok (r1 ++ r2)%list).
Proof.
  intros H1 H2. split.
  - do 2 eexists. split; [now apply point_lookup_value|].
    split; [now apply point_lookup_value|].
    rewrite point_lookup_value by (rewrite well_formed_app, H1, H2; reflexivity).
    unfold containing. now rewrite filter_app, map_app.
  - do 2 eexists. split; [apply zone_lookup_value|].
    split; [apply zone_lookup_value|].
    rewrite zone_lookup_value. unfold of_zone.
    now rewrite filter_app, map_app, filter_app.
Qed.

Lemma lookups_on_appended_catalogs_witness :
  (exists r1 r2,
     find_granule_by_point (Doc.catalog_json scenario_catalog) [169#2; 113#4] = Ok r1 /\
     find_granule_by_point (Doc.catalog_json sample_catalog) [169#2; 113#4] = Ok r2 /\
     find_granule_by_point (Doc.catalog_json (scenario_catalog ++ sample_catalog))
       [169#2; 113#4] = Ok (r1 ++ r2)%list) /\
  (exists r1 r2,
     find_granules_by_zone sample_lexists (Doc.catalog_json scenario_catalog)
       "EPSG:32645" = Ok r1 /\
     find_granules_by_zone sample_lexists (Doc.catalog_json sample_catalog)
       "EPSG:32645" = Ok r2 /\
     find_granules_by_zone sample_lexists
       (Doc.catalog_json (scenario_catalog ++ sample_catalog)) "EPSG:32645"
     = Ok (r1 ++ r2)%list).
Proof.
  apply lookups_on_appended_catalogs; reflexivity.
Defined.

Lemma polygon_refused (r : list coord) :
  ring_accepted r = false -> Geom.Polygon r = Raise ValueError.
Proof.
  destruct r as [|a [|b [|c r]]]; try discriminate; reflexivity.
Qed.

Lemma run_point_refused (p : coord) (C : list Feature) (urls : list json) :
  well_formed C = false ->
  run_steps (raw_point_step p) (List.map raw_of C) urls = Raise ValueError.
Proof.
  revert urls; induction C as [|f C IH]; intros urls H; [discriminate|].
  cbn [well_formed forallb] in H. cbn [List.map run_steps].
  unfold raw_point_step at 1. cbn [raw_of raw_ring raw_url].
  destruct (ring_accepted (footprint f)) eqn:A.
  - rewrite (polygon_accepted _ A). cbn [bind].
    destruct (Geom.contains _ _); cbn [bind]; apply IH; exact H.
  - now rewrite (polygon_refused _ A).
Qed.

(** X10: a footprint of one or two coordinates is no polygon: on a
    catalog that has such a footprint the point lookup fails with
    [ValueError], for every point, while the zone lookup, which does not
    read footprints, returns as on any catalog. *)
Theorem find_granule_by_point_refused_ring (lexists : string -> bool)
    (C : list Feature) (lon lat : Q) (epsg_code : string) :
  well_formed C = false ->
  find_granule_by_point (Doc.catalog_json C) [lon; lat] = Raise ValueError /\
  find_granules_by_zone lexists (Doc.catalog_json C) epsg_code
  = Ok (filter lexists
          (List.map (fun f => s3_url_of (locator f)) (of_zone C epsg_code))).
Proof.
  intros H. split.
  - unfold Doc.catalog_json. rewrite find_granule_by_point_raw.
    now apply run_point_refused.
  - apply zone_lookup_value.
Qed.

Lemma find_granule_by_point_refused_ring_witness :
  find_granule_by_point
    (Doc.catalog_json
       (scenario_catalog ++
        [{| footprint := [(84#1, 28#1); (85#1, 28#1)];
            zone := "EPSG:32645";
            locator := "http://its-live-data.s3.amazonaws.com/datacubes/v02/d.zarr" |}]))
    [0; 0] = Raise ValueError /\
  find_granules_by_zone sample_lexists
    (Doc.catalog_json
       (scenario_catalog ++
        [{| footprint := [(84#1, 28#1); (85#1, 28#1)];
            zone := "EPSG:32645";
            locator := "http://its-live-data.s3.amazonaws.com/datacubes/v02/d.zarr" |}]))
    "EPSG:32645"
  = Ok ["s3://its-live-data/datacubes/v02/d.zarr"].
Proof.
  apply (@find_granule_by_point_refused_ring sample_lexists
           (scenario_catalog ++
            [{| footprint := [(84#1, 28#1); (85#1, 28#1)];
                zone := "EPSG:32645";
                locator := "http://its-live-data.s3.amazonaws.com/datacubes/v02/d.zarr" |}])
           0 0 "EPSG:32645").
  reflexivity.
Defined.

(* ===================================================================== *)
(** * Repeated dates along the time axis: facts *)
(* ===================================================================== *)

Lemma adjacent_duplicates_short (a : list Q) :
  (List.length a <= 1)%nat -> adjacent_duplicates a = [].
Proof. destruct a as [|v [|w a]]; simpl; intros; [reflexivity..|lia]. Qed.

Section DuplicateLoop.

Variable input_xr : Dataset.
Variable dates : list Q.
Hypothesis has_dates : Xr.assoc (coords input_xr) "mid_date" = Some dates.

Lemma isel_mid_date_nth (i : nat) :
  isel_mid_date input_xr i =
  match nth_error dates i with
  | Some v => Ok v
  | None => Raise IndexError
  end.
Proof. unfold isel_mid_date. now rewrite has_dates. Qed.

(** One turn of the loop, on what was printed so far. *)
Lemma dup_body_run (i : nat) (out : list Q) :
  dup_body input_xr i out =
  if (i + 1 <=? 284)%nat then
    match nth_error dates i, nth_error dates (i + 1) with
    | Some a, Some b =>
        if Qeq_bool a b then ((out ++ [a])%list, Ok tt) else (out, Ok tt)
    | _, _ => (out, Raise IndexError)
    end
  else (out, Ok tt).
Proof.
  unfold dup_body. destruct (i + 1 <=? 284)%nat; [|reflexivity].
  unfold IO.bind, IO.lift, IO.ret, IO.print. rewrite !isel_mid_date_nth.
  destruct (nth_error dates i) as [a|]; [|reflexivity].
  destruct (nth_error dates (i + 1)) as [b|]; [|reflexivity].
  now destruct (Qeq_bool a b).
Qed.

Lemma adjacent_duplicates_cons (v w : Q) (a : list Q) :
  adjacent_duplicates (v :: w :: a) =
  if Qeq_bool v w then v :: adjacent_duplicates (w :: a)
  else adjacent_duplicates (w :: a).
Proof. reflexivity. Qed.

(** The loop from position [length pre] on, [rest] being what is left of
    the series. *)
Lemma dup_loop (rest pre : list Q) (out : list Q) :
  dates = (pre ++ rest)%list ->
  IO.for_range (dup_body input_xr) (List.length pre) (List.length rest) out =
  ((out ++ adjacent_duplicates (firstn (285 - List.length pre) rest))%list,
   if (List.length rest =? 0)%nat || (285 <=? List.length dates)%nat
   then Ok tt else Raise IndexError).
Proof.
  revert pre out; induction rest as [|a rest IH]; intros pre out E.
  - cbn [List.length IO.for_range]. unfold IO.ret.
    rewrite firstn_nil. cbn [adjacent_duplicates]. now rewrite app_nil_r.
  - assert (Ha : nth_error dates (List.length pre) = Some a).
    { rewrite E, nth_error_app2 by lia. now rewrite Nat.sub_diag. }
    assert (Hlen : List.length dates = (List.length pre + S (List.length rest))%nat).
    { rewrite E, length_app. reflexivity. }
    assert (E' : dates = ((pre ++ [a]) ++ rest)%list)
      by (rewrite <- app_assoc; exact E).
    specialize (IH (pre ++ [a])%list).
    rewrite length_app in IH. cbn [List.length] in IH.
    rewrite Nat.add_1_r in IH.
    change (List.length (a :: rest)) with (S (List.length rest)).
    cbn [IO.for_range]. unfold IO.bind. rewrite dup_body_run, Ha.
    change (S (List.length rest) =? 0)%nat with false. cbn [orb].
    destruct (Nat.leb_spec (List.length pre + 1) 284) as [Hle|Hgt].
    + replace (285 - List.length pre)%nat
        with (S (S (283 - List.length pre)))%nat by lia.
      destruct rest as [|b rest].
      * (* the series ends here: the successor is read past the end *)
        rewrite (proj2 (nth_error_None dates (List.length pre + 1)))
          by (rewrite Hlen; simpl; lia).
        cbn [firstn adjacent_duplicates]. rewrite app_nil_r.
        replace (285 <=? List.length dates)%nat with false
          by (symmetry; apply Nat.leb_gt; rewrite Hlen; simpl; lia).
        reflexivity.
      * assert (Hb : nth_error dates (List.length pre + 1) = Some b).
        { rewrite E', nth_error_app2 by (rewrite length_app; simpl; lia).
          rewrite length_app. cbn [List.length].
          now rewrite Nat.sub_diag. }
        rewrite Hb. cbn [firstn]. rewrite adjacent_duplicates_cons.
        replace (285 - S (List.length pre))%nat
          with (S (283 - List.length pre))%nat in IH by lia.
        cbn [firstn] in IH.
        change (List.length (b :: rest) =? 0)%nat with false in IH.
        cbn [orb] in IH.
        destruct (Qeq_bool a b); rewrite (IH _ E'); [|reflexivity].
        now rewrite <- app_assoc.
    + rewrite (IH _ E').
      rewrite !adjacent_duplicates_short
        by (rewrite length_firstn; lia).
      replace (285 <=? List.length dates)%nat with true
        by (symmetry; apply Nat.leb_le; rewrite Hlen; lia).
      now rewrite !orb_true_r.
Qed.

(** The whole call: what it prints, and how it ends. *)
Lemma find_dim_duplicates_run (out : list Q) :
  find_dim_duplicates input_xr out =
  ((out ++ adjacent_duplicates (firstn 285 dates))%list,
   if (List.length dates =? 0)%nat || (285 <=? List.length dates)%nat
   then Ok PyNone else Raise IndexError).
Proof.
  unfold find_dim_duplicates, mid_date_len. rewrite has_dates.
  unfold IO.bind, IO.lift, IO.ret.
  change 0%nat with (List.length (@nil Q)) at 1.
  rewrite (dup_loop dates [] out eq_refl).
  cbn [List.length]. rewrite Nat.sub_0_r.
  now destruct ((List.length dates =? 0)%nat || (285 <=? List.length dates)%nat).
Qed.

End DuplicateLoop.

(** X11: on a data set whose time axis has between 1 and 284 entries,
    [find_dim_duplicates] ends with [IndexError]: at the last entry it
    reads the entry after it.  Before that it has printed, in order, the
    entries that are equal to their successor. *)
Theorem find_dim_duplicates_short_series (input_xr : Dataset)
    (dates out : list Q) :
  Xr.assoc (coords input_xr) "mid_date" = Some dates ->
  (1 <= List.length dates <= 284)%nat ->
  find_dim_duplicates input_xr out
  = ((out ++ adjacent_duplicates dates)%list, Raise IndexError).
Proof.
  intros H [L1 L2]. rewrite (find_dim_duplicates_run _ H).
  rewrite firstn_all2 by lia.
  replace (List.length dates =? 0)%nat with false
    by (symmetry; apply Nat.eqb_neq; lia).
  replace (285 <=? List.length dates)%nat with false
    by (symmetry; apply Nat.leb_gt; lia).
  reflexivity.
Qed.

Lemma find_dim_duplicates_short_series_witness :
  find_dim_duplicates (time_series [1; 1; 2#1; 3#1; 3#1; 3#1]) []
  = (([] ++ adjacent_duplicates [1; 1; 2#1; 3#1; 3#1; 3#1])%list, Raise IndexError).
Proof.
  apply find_dim_duplicates_short_series; [reflexivity | simpl; lia].
Defined.

(** X12: on a data set whose time axis has 285 entries or more,
    [find_dim_duplicates] returns [None] and prints, in order, the
    entries among the first 284 that are equal to their successor; equal
    neighbours further on are not reported, so that the call prints what
    it prints on the first 285 entries alone.  On an empty axis it prints
    nothing and returns [None]. *)
Theorem find_dim_duplicates_long_series (input_xr : Dataset)
    (dates out : list Q) :
  Xr.assoc (coords input_xr) "mid_date" = Some dates ->
  (List.length dates = 0 \/ 285 <= List.length dates)%nat ->
  find_dim_duplicates input_xr out
  = ((out ++ adjacent_duplicates (firstn 285 dates))%list, Ok PyNone) /\
  find_dim_duplicates input_xr out
  = find_dim_duplicates (time_series (firstn 285 dates)) out.
Proof.
  intros H L.
  assert (B : (List.length dates =? 0)%nat || (285 <=? List.length dates)%nat = true).
  { destruct L as [L|L].
    - rewrite L. reflexivity.
    - rewrite (proj2 (Nat.leb_le _ _) L). apply orb_true_r. }
  rewrite (find_dim_duplicates_run _ H), B. split; [reflexivity|].
  rewrite (@find_dim_duplicates_run (time_series (firstn 285 dates))
             (firstn 285 dates) eq_refl).
  rewrite firstn_firstn, Nat.min_id.
  assert (B' : (List.length (firstn 285 dates) =? 0)%nat
               || (285 <=? List.length (firstn 285 dates))%nat = true).
  { rewrite length_firstn. destruct L as [L|L].
    - rewrite L. reflexivity.
    - rewrite Nat.min_l by exact L. rewrite Nat.leb_refl. apply orb_true_r. }
  now rewrite B'.
Qed.

Lemma find_dim_duplicates_long_series_witness :
  find_dim_duplicates (time_series (repeat 1 286 ++ [5#1; 5#1])) []
  = (([] ++ adjacent_duplicates (firstn 285 (repeat 1 286 ++ [5#1; 5#1])))%list,
     Ok PyNone) /\
  find_dim_duplicates (time_series (repeat 1 286 ++ [5#1; 5#1])) []
  = find_dim_duplicates
      (time_series (firstn 285 (repeat 1 286 ++ [5#1; 5#1]))) [].
Proof.
  apply find_dim_duplicates_long_series; [reflexivity|].
  right. rewrite length_app, repeat_length. simpl. lia.
Defined.

(* ===================================================================== *)
(** * Rectangular footprints *)
(* ===================================================================== *)

Lemma Qle_bool_false (a b : Q) : (b < a)%Q -> Qle_bool a b = false.
Proof.
  intros H. destruct (Qle_bool a b) eqn:E; [|reflexivity].
  apply Qle_bool_iff in E. lra.
Qed.

Lemma Qeq_bool_false (a b : Q) : ~ (a == b)%Q -> Qeq_bool a b = false.
Proof.
  intros H. destruct (Qeq_bool a b) eqn:E; [|reflexivity].
  apply Qeq_bool_iff in E. contradiction.
Qed.

(** Every comparison of the goal is settled from the hypotheses on the
    position of the point. *)
Ltac q_decide :=
  repeat first
    [ progress cbn [fst snd negb andb orb Geom.on_segment Geom.crossings CompOpp]
    | match goal with
      | |- context [Qle_bool ?a ?b] =>
          first [ replace (Qle_bool a b) with true
                    by (symmetry; apply Qle_bool_iff; lra)
                | replace (Qle_bool a b) with false
                    by (symmetry; apply Qle_bool_false; lra) ]
      | |- context [Qeq_bool ?a ?b] =>
          first [ replace (Qeq_bool a b) with true
                    by (symmetry; apply Qeq_bool_iff; lra)
                | replace (Qeq_bool a b) with false
                    by (symmetry; apply Qeq_bool_false; lra) ]
      | |- context [Qcompare ?a ?b] =>
          first [ replace (Qcompare a b) with Eq
                    by (symmetry; apply (proj1 (Qeq_alt a b)); nra)
                | replace (Qcompare a b) with Lt
                    by (symmetry; apply (proj1 (Qlt_alt a b)); nra)
                | replace (Qcompare a b) with Gt
                    by (symmetry; apply (proj1 (Qgt_alt a b)); nra) ]
      end ].

(** The innermost segment of the count is evaluated to a counter. *)
Ltac eval_segment :=
  match goal with
  | |- context [Geom.count_segment ?p ?a ?b (Geom.Build_counter ?o ?n)] =>
      let E := fresh "E" in
      eassert (E : Geom.count_segment p a b (Geom.Build_counter o n) = _);
      [ unfold Geom.count_segment, Geom.coord_eqb, Geom.orientation_index,
          Geom.Qltb, Qmin, Qmax, GenericMinMax.gmin, GenericMinMax.gmax;
        q_decide; reflexivity
      | rewrite E; clear E ]
  end.

(** Where a point lies with respect to a rectangle, however the ring is
    listed: by the position of its coordinates with respect to the sides,
    and then the four ring segments one after the other. *)
Lemma rectangle_location (start : nat) (clockwise : bool)
    (x0 y0 x1 y1 px py : Q) :
  (x0 < x1)%Q -> (y0 < y1)%Q ->
  Geom.locate_in_ring (px, py) (rectangle_listing start clockwise true x0 y0 x1 y1) =
  if strictly_inside x0 y0 x1 y1 (px, py) then Geom.Interior
  else if Qle_bool x0 px && Qle_bool px x1 && Qle_bool y0 py && Qle_bool py y1
       then Geom.Boundary else Geom.Exterior.
Proof.
  intros Hx Hy.
  unfold Geom.locate_in_ring, strictly_inside.
  destruct start as [|[|[|[|n]]]], clockwise;
    cbn [rectangle_listing corners rev skipn firstn app];
    rewrite ?skipn_nil, ?firstn_nil; cbn [app Geom.count_ring];
    destruct (Q_dec px x0) as [[?|?]|?];
    destruct (Q_dec px x1) as [[?|?]|?]; try (exfalso; lra);
    destruct (Q_dec py y0) as [[?|?]|?];
    destruct (Q_dec py y1) as [[?|?]|?]; try (exfalso; lra);
    do 4 eval_segment; unfold Geom.Qltb; q_decide; reflexivity.
Qed.

Lemma strictly_inside_iff (x0 y0 x1 y1 px py : Q) :
  strictly_inside x0 y0 x1 y1 (px, py) = true <->
  (x0 < px /\ px < x1 /\ y0 < py /\ py < y1)%Q.
Proof.
  unfold strictly_inside. cbn [fst snd].
  rewrite !andb_true_iff, !Qltb_lt. tauto.
Qed.

(** [Polygon] closes the listings that are not closed. *)
Lemma polygon_rectangle_listing (start : nat) (clockwise closed : bool)
    (x0 y0 x1 y1 : Q) :
  (x0 < x1)%Q -> (y0 < y1)%Q ->
  Geom.Polygon (rectangle_listing start clockwise closed x0 y0 x1 y1)
  = Ok (Some (rectangle_listing start clockwise true x0 y0 x1 y1)).
Proof.
  intros Hx Hy.
  destruct start as [|[|[|[|n]]]], clockwise, closed;
    cbn [rectangle_listing corners rev skipn firstn app];
    rewrite ?skipn_nil, ?firstn_nil; cbn [app];
    unfold Geom.Polygon;
    cbn [List.length Nat.ltb Nat.leb Nat.eqb last app];
    unfold Geom.coord_eqb; q_decide; reflexivity.
Qed.

Lemma footprint_contains_rectangle (f : Feature) (start : nat)
    (clockwise closed : bool) (x0 y0 x1 y1 px py : Q) :
  footprint f = rectangle_listing start clockwise closed x0 y0 x1 y1 ->
  (x0 < x1)%Q -> (y0 < y1)%Q ->
  footprint_contains f (px, py) = strictly_inside x0 y0 x1 y1 (px, py) /\
  on_boundary f (px, py) =
    negb (strictly_inside x0 y0 x1 y1 (px, py))
    && (Qle_bool x0 px && Qle_bool px x1 && Qle_bool y0 py && Qle_bool py y1).
Proof.
  intros E Hx Hy.
  unfold footprint_contains, on_boundary, footprint_location, footprint_polygon.
  rewrite E, (polygon_rectangle_listing start clockwise closed Hx Hy).
  unfold Geom.contains.
  rewrite (rectangle_location start clockwise px py Hx Hy).
  destruct (strictly_inside x0 y0 x1 y1 (px, py)); [split; reflexivity|].
  now destruct (Qle_bool x0 px && Qle_bool px x1 && Qle_bool y0 py && Qle_bool py y1).
Qed.

Lemma rectangles_well_formed (C : list Feature) :
  Forall (fun f => exists start clockwise closed x0 y0 x1 y1,
            footprint f = rectangle_listing start clockwise closed x0 y0 x1 y1
            /\ (x0 < x1)%Q /\ (y0 < y1)%Q) C ->
  well_formed C = true.
Proof.
  unfold well_formed.
  induction 1 as [|f C (s & cw & cl & x0 & y0 & x1 & y1 & E & _) _ IH];
    [reflexivity|].
  cbn [forallb]. rewrite E, IH.
  destruct s as [|[|[|[|n]]]], cw, cl;
    cbn [rectangle_listing corners rev skipn firstn app];
    rewrite ?skipn_nil, ?firstn_nil; reflexivity.
Qed.

(** X13: on a catalog whose footprints are axis-parallel rectangles,
    each listed from any of its corners, in either direction, closed by a
    copy of the first corner or left open, the point lookup returns the
    locator of a feature exactly when the point lies strictly between
    the sides of its rectangle; a point on a side or on a corner of a
    rectangle is located on its boundary and that feature contributes
    nothing. *)
Theorem find_granule_by_point_rectangles (C : list Feature) (lon lat : Q) :
  Forall (fun f => exists start clockwise closed x0 y0 x1 y1,
            footprint f = rectangle_listing start clockwise closed x0 y0 x1 y1
            /\ (x0 < x1)%Q /\ (y0 < y1)%Q) C ->
  exists urls,
    find_granule_by_point (Doc.catalog_json C) [lon; lat] = Ok urls /\
    (forall u, In u urls <->
       exists f start clockwise closed x0 y0 x1 y1,
         In f C /\ u = JStr (locator f) /\
         footprint f = rectangle_listing start clockwise closed x0 y0 x1 y1 /\
         (x0 < lon /\ lon < x1 /\ y0 < lat /\ lat < y1)%Q) /\
    (forall f start clockwise closed x0 y0 x1 y1,
       In f C ->
       footprint f = rectangle_listing start clockwise closed x0 y0 x1 y1 ->
       (x0 < x1)%Q -> (y0 < y1)%Q ->
       ((x0 <= lon <= x1 /\ (lat == y0 \/ lat == y1)) \/
        (y0 <= lat <= y1 /\ (lon == x0 \/ lon == x1)))%Q ->
       on_boundary f (lon, lat) = true /\
       ~ In f (containing C (lon, lat))).
Proof.
  intros HR. pose proof (rectangles_well_formed HR) as HW.
  eexists. split; [now apply point_lookup_value|]. split.
  - intros u. unfold containing. rewrite in_map_iff. split.
    + intros (f & <- & Hf). apply filter_In in Hf as [Hf Hc].
      destruct (proj1 (Forall_forall _ _) HR f Hf)
        as (s & cw & cl & x0 & y0 & x1 & y1 & E & Hx & Hy).
      exists f, s, cw, cl, x0, y0, x1, y1. repeat split; try assumption;
        rewrite (proj1 (footprint_contains_rectangle f s cw cl lon lat E Hx Hy)) in Hc;
        apply strictly_inside_iff in Hc; tauto.
    + intros (f & s & cw & cl & x0 & y0 & x1 & y1 & Hf & -> & E & Hin).
      exists f. split; [reflexivity|]. apply filter_In. split; [exact Hf|].
      assert (Hx : (x0 < x1)%Q) by lra. assert (Hy : (y0 < y1)%Q) by lra.
      rewrite (proj1 (footprint_contains_rectangle f s cw cl lon lat E Hx Hy)).
      now apply strictly_inside_iff.
  - intros f s cw cl x0 y0 x1 y1 Hf E Hx Hy Hb.
    destruct (footprint_contains_rectangle f s cw cl lon lat E Hx Hy) as [Hc Hbd].
    assert (Hs : strictly_inside x0 y0 x1 y1 (lon, lat) = false).
    { destruct (strictly_inside x0 y0 x1 y1 (lon, lat)) eqn:S; [|reflexivity].
      apply strictly_inside_iff in S. exfalso. lra. }
    split.
    + rewrite Hbd, Hs. cbn [negb andb].
      rewrite !andb_true_iff, !Qle_bool_iff. lra.
    + unfold containing. intros Hin. apply filter_In in Hin as [_ Hin].
      congruence.
Qed.

Lemma find_granule_by_point_rectangles_witness :
  exists urls,
    find_granule_by_point (Doc.catalog_json clockwise_catalog) [169#2; 57#2]
    = Ok urls /\
    (forall u, In u urls <->
       exists f start clockwise closed x0 y0 x1 y1,
         In f clockwise_catalog /\ u = JStr (locator f) /\
         footprint f = rectangle_listing start clockwise closed x0 y0 x1 y1 /\
         (x0 < 169#2 /\ 169#2 < x1 /\ y0 < 57#2 /\ 57#2 < y1)%Q) /\
    (forall f start clockwise closed x0 y0 x1 y1,
       In f clockwise_catalog ->
       footprint f = rectangle_listing start clockwise closed x0 y0 x1 y1 ->
       (x0 < x1)%Q -> (y0 < y1)%Q ->
       ((x0 <= 169#2 <= x1 /\ (57#2 == y0 \/ 57#2 == y1)) \/
        (y0 <= 57#2 <= y1 /\ (169#2 == x0 \/ 169#2 == x1)))%Q ->
       on_boundary f (169#2, 57#2) = true /\
       ~ In f (containing clockwise_catalog (169#2, 57#2))).
Proof.
  apply find_granule_by_point_rectangles.
  constructor; [|constructor; [|constructor]].
  - exists 0%nat, false, true, (84#1), (28#1), (85#1), (29#1).
    split; [reflexivity|]. split; reflexivity.
  - exists 1%nat, true, true, (84#1), (28#1), (85#1), (29#1).
    split; [reflexivity|]. split; reflexivity.
Defined.

(* ===================================================================== *)
(** * The probes of the zone lookup *)
(* ===================================================================== *)

Lemma zone_body_probing_erase (lexists : string -> bool) (input_dict : json)
    (z : string) (i : nat) (st : list string * list string) :
  result_map fst (zone_body_probing lexists input_dict z i st)
  = zone_body lexists input_dict z i (fst st).
Proof.
  destruct st as [url_ls probed]. unfold zone_body_probing, zone_body. cbn [fst].
  destruct (Py.getitem input_dict (KStr "features")) as [fs|e]; cbn [bind];
    [|reflexivity].
  destruct (Py.getitem fs (KInt i)) as [f|e]; cbn [bind]; [|reflexivity].
  destruct (Py.getitem f (KStr "properties")) as [props|e]; cbn [bind];
    [|reflexivity].
  destruct (Py.getitem props (KStr "data_epsg")) as [v|e]; cbn [bind];
    [|reflexivity].
  destruct (Py.eq_str v z); [|reflexivity].
  destruct (Py.getitem props (KStr "zarr_url")) as [u|e]; cbn [bind];
    [|reflexivity].
  destruct (Py.replace_method u "http" "s3") as [s|e]; cbn [bind];
    [|reflexivity].
  now destruct (lexists _).
Qed.

Lemma zone_loop_probing_erase (lexists : string -> bool) (input_dict : json)
    (z : string) (n i0 : nat) (st : list string * list string) :
  result_map fst (for_range (zone_body_probing lexists input_dict z) i0 n st)
  = for_range (zone_body lexists input_dict z) i0 n (fst st).
Proof.
  revert i0 st; induction n as [|n IH]; intros i0 st; [reflexivity|].
  cbn [for_range]. rewrite <- zone_body_probing_erase.
  destruct (zone_body_probing lexists input_dict z i0 st) as [st1|e];
    cbn [bind result_map]; [apply IH | reflexivity].
Qed.

Lemma zone_body_probing_feature (lexists : string -> bool) (C : list Feature)
    (z : string) (i : nat) (f : Feature) (st : list string * list string) :
  nth_error C i = Some f ->
  zone_body_probing lexists (Doc.catalog_json C) z i st =
  Ok (if String.eqb (zone f) z
      then ((fst st ++ filter lexists [s3_url_of (locator f)])%list,
            (snd st ++ [s3_url_of (locator f)])%list)
      else st).
Proof.
  intros H. destruct st as [url_ls probed].
  unfold zone_body_probing, Doc.catalog_json.
  rewrite features_of_catalog. cbn [bind].
  rewrite (feature_of_catalog _ _ (map_nth_error raw_of _ _ H)). cbn [bind].
  change (Py.getitem (Doc.feature_json (raw_of f)) (KStr "properties"))
    with (Ok (JObj [("data_epsg", JStr (zone f)); ("zarr_url", JStr (locator f))])).
  cbn [bind].
  change (Py.getitem (JObj [("data_epsg", JStr (zone f));
                            ("zarr_url", JStr (locator f))]) (KStr "data_epsg"))
    with (Ok (JStr (zone f))).
  cbn [bind Py.eq_str].
  destruct (String.eqb (zone f) z); [|reflexivity].
  change (Py.getitem (JObj [("data_epsg", JStr (zone f));
                            ("zarr_url", JStr (locator f))]) (KStr "zarr_url"))
    with (Ok (JStr (locator f))).
  cbn [bind Py.replace_method fst snd filter]. fold (s3_url_of (locator f)).
  destruct (lexists (s3_url_of (locator f))); [reflexivity|].
  now rewrite app_nil_r.
Qed.

Lemma run_zone_probing (lexists : string -> bool) (z : string)
    (C : list Feature) (st : list string * list string) :
  run_steps (fun f st =>
               Ok (if String.eqb (zone f) z
                   then ((fst st ++ filter lexists [s3_url_of (locator f)])%list,
                         (snd st ++ [s3_url_of (locator f)])%list)
                   else st)) C st
  = Ok ((fst st ++ filter lexists
                     (List.map (fun f => s3_url_of (locator f)) (of_zone C z)))%list,
        (snd st ++ List.map (fun f => s3_url_of (locator f)) (of_zone C z))%list).
Proof.
  revert st; induction C as [|f C IH]; intros [url_ls probed].
  - simpl. now rewrite !app_nil_r.
  - cbn [run_steps bind]. rewrite IH. unfold of_zone. cbn [filter fst snd].
    destruct (String.eqb (zone f) z); [|reflexivity].
    cbn [fst snd List.map].
    change (s3_url_of (locator f)
            :: List.map (fun f0 => s3_url_of (locator f0))
                 (filter (fun f0 => String.eqb (zone f0) z) C))
      with ([s3_url_of (locator f)]
            ++ List.map (fun f0 => s3_url_of (locator f0))
                 (filter (fun f0 => String.eqb (zone f0) z) C))%list.
    now rewrite filter_app, <- !app_assoc.
Qed.

(** X14: the zone lookup probes the object store once for each feature of
    the zone asked for, in catalog order, with the translated locator of
    the feature, whether the probe finds it or not, and never for a
    feature of another zone; what it hands back is the probed locators
    that were found.  On any document the list handed back is the one of
    [find_granules_by_zone]. *)
Theorem find_granules_by_zone_probes (lexists : string -> bool) :
  (forall (C : list Feature) (epsg_code : string),
     let probed := List.map (fun f => s3_url_of (locator f)) (of_zone C epsg_code) in
     find_granules_by_zone_probing lexists (Doc.catalog_json C) epsg_code
     = Ok (filter lexists probed, probed)) /\
  (forall (input_dict : json) (epsg_code : string),
     result_map fst (find_granules_by_zone_probing lexists input_dict epsg_code)
     = find_granules_by_zone lexists input_dict epsg_code).
Proof.
  split.
  - intros C z probed. unfold find_granules_by_zone_probing, Doc.catalog_json.
    rewrite features_of_catalog. cbn [bind Py.len]. rewrite !length_map.
    rewrite (for_range_list
               (fun f st =>
                  Ok (if String.eqb (zone f) z
                      then ((fst st ++ filter lexists [s3_url_of (locator f)])%list,
                            (snd st ++ [s3_url_of (locator f)])%list)
                      else st)))
      by (intros; now apply zone_body_probing_feature).
    now rewrite run_zone_probing.
  - intros d z. unfold find_granules_by_zone_probing, find_granules_by_zone.
    destruct (Py.getitem d (KStr "features")) as [fs|e]; cbn [bind result_map];
      [|reflexivity].
    destruct (Py.len fs) as [n|e]; cbn [bind result_map]; [|reflexivity].
    exact (zone_loop_probing_erase lexists d z n 0 ([], [])).
Qed.
